(** * A shallow embedding of [keras/gpt.py]: decoder-only transformer layers

    The Python file builds its layers on top of TensorFlow/Keras.  Tensors are
    modelled by their shape (a list of dimensions, as [tensor.shape]) together
    with an element function on multi-indices; arithmetic is the arithmetic of
    the real numbers.  Every operation that TensorFlow rejects at run time
    (incompatible shapes, failed [assert]) returns an error.

    The Keras layers the file calls ([Dense], [Softmax], [Dropout],
    [LayerNormalization], [Conv1D], [Embedding], [MultiHeadAttention]) are
    written out after their Keras 2 implementation; their trainable tensors,
    which Keras creates on first use, are explicit arguments.  Dropout draws
    its random mask from an explicit [keep] argument, and the training flag
    that Keras passes implicitly is an explicit [training] argument. *)

From Stdlib Require Import Reals Lra Lia List Arith Bool PeanoNat Permutation.
Import ListNotations.
Open Scope R_scope.

(** ** Errors and the result monad *)

Inductive error : Set :=
| AssertionError          (* a Python [assert] failed *)
| ZeroDivisionError       (* [%] or [//] by zero *)
| IndexError              (* a Python sequence index out of range *)
| ValueError              (* Keras: an argument of a layer is not acceptable *)
| InvalidArgumentError.   (* TensorFlow: incompatible shapes, index out of range *)

Inductive result (A : Type) : Type :=
| Ok (a : A)
| Err (e : error).
Arguments Ok {A} a.
Arguments Err {A} e.

Definition bind {A B : Type} (r : result A) (k : A -> result B) : result B :=
  match r with
  | Ok a => k a
  | Err e => Err e
  end.

Notation "x <- e ;; k" := (bind e (fun x => k))
  (at level 61, e at next level, right associativity).

(** ** Tensors *)

Record tensor : Type := mkTensor {
  shape : list nat;
  elt : list nat -> R
}.

(** Integer tensors (token indices, [tf.range]). *)
Record itensor : Type := mkITensor {
  ishape : list nat;
  ielt : list nat -> nat
}.

Fixpoint shape_eqb (s1 s2 : list nat) : bool :=
  match s1, s2 with
  | [], [] => true
  | a :: s1', b :: s2' => (a =? b)%nat && shape_eqb s1' s2'
  | _, _ => false
  end.

(** [rsum n f] is [f 0 + ... + f (n-1)]. *)
Fixpoint rsum (n : nat) (f : nat -> R) : R :=
  match n with
  | O => 0
  | S m => rsum m f + f m
  end.

(** All multi-indices of a shape, in row-major order. *)
Fixpoint indices (s : list nat) : list (list nat) :=
  match s with
  | [] => [[]]
  | d :: s' => flat_map (fun i => map (cons i) (indices s')) (seq 0 d)
  end.

(** *** Broadcasting (NumPy rules: align trailing axes; equal or 1) *)

Fixpoint bshape_rev (s1 s2 : list nat) : option (list nat) :=
  match s1, s2 with
  | [], _ => Some s2
  | _, [] => Some s1
  | a :: s1', b :: s2' =>
      match bshape_rev s1' s2' with
      | None => None
      | Some r =>
          if (a =? b)%nat then Some (a :: r)
          else if (a =? 1)%nat then Some (b :: r)
          else if (b =? 1)%nat then Some (a :: r)
          else None
      end
  end.

Definition broadcast_shape (s1 s2 : list nat) : option (list nat) :=
  option_map (@rev nat) (bshape_rev (rev s1) (rev s2)).

Fixpoint bindex_rev (s idx : list nat) : list nat :=
  match s, idx with
  | d :: s', i :: idx' => (if (d =? 1)%nat then O else i) :: bindex_rev s' idx'
  | _, _ => []
  end.

(** The index of an operand of shape [s] read for the result index [idx]. *)
Definition broadcast_index (s idx : list nat) : list nat :=
  rev (bindex_rev (rev s) (rev idx)).

Definition tmap (f : R -> R) (x : tensor) : tensor :=
  {| shape := shape x; elt := fun idx => f (elt x idx) |}.

(** [x + y] on tensors. *)
Definition tadd (x y : tensor) : result tensor :=
  match broadcast_shape (shape x) (shape y) with
  | Some s =>
      Ok {| shape := s;
            elt := fun idx => elt x (broadcast_index (shape x) idx)
                              + elt y (broadcast_index (shape y) idx) |}
  | None => Err InvalidArgumentError
  end.

(** [K.permute_dimensions(x, (0, 2, 1))]: only defined on rank 3. *)
Definition permute_dimensions_021 (x : tensor) : result tensor :=
  match shape x with
  | [b; t; c] =>
      Ok {| shape := [b; c; t];
            elt := fun idx => match idx with
                              | [n; i; j] => elt x [n; j; i]
                              | _ => 0
                              end |}
  | _ => Err InvalidArgumentError
  end.

(** [tf.matmul a b] on two rank-3 tensors with the same batch dimension. *)
Definition matmul (a b : tensor) : result tensor :=
  match shape a, shape b with
  | [ba; m; k], [bb; k'; n] =>
      if (ba =? bb)%nat && (k =? k')%nat then
        Ok {| shape := [ba; m; n];
              elt := fun idx => match idx with
                                | [p; i; j] =>
                                    rsum k (fun l => elt a [p; i; l] * elt b [p; l; j])
                                | _ => 0
                                end |}
      else Err InvalidArgumentError
  | _, _ => Err InvalidArgumentError
  end.

(** [tf.nn.softmax] along the last axis. *)
Definition softmax (x : tensor) : tensor :=
  {| shape := shape x;
     elt := fun idx =>
       exp (elt x idx)
       / rsum (last (shape x) O) (fun k => exp (elt x (removelast idx ++ [k]))) |}.

(** ** Keras layers used by the file *)

(** [keras.layers.Softmax]'s constant for masked positions
    ([_large_compatible_negative] for float32 and float64). *)
Definition large_compatible_negative : R := - 1000000000.

(** [layers.Softmax(axis=-1)(inputs, mask)]: Keras adds
    [(1.0 - mask) * large_compatible_negative] to the inputs (broadcasting the
    mask) and then takes the softmax along the last axis. *)
Definition Softmax_call (inputs : tensor) (mask : option tensor) : result tensor :=
  inputs' <- match mask with
             | None => Ok inputs
             | Some m =>
                 tadd inputs (tmap (fun v => (1 - v) * large_compatible_negative) m)
             end ;;
  Ok (softmax inputs').

(** [layers.Dropout(rate)(x)]: the identity when [rate] is 0 or outside
    training; in training every element is kept (and rescaled by
    [1 / (1 - rate)]) or zeroed according to a random draw, given here as
    [keep]. *)
Definition Dropout_call (rate : R) (training : bool) (keep : list nat -> bool)
    (x : tensor) : tensor :=
  if Req_dec_T rate 0 then x
  else if training then
    {| shape := shape x;
       elt := fun idx => if keep idx then elt x idx / (1 - rate) else 0 |}
  else x.

(** [layers.Dense(units, activation=None, use_bias=...)]: acts on the last
    axis.  The kernel has shape [(input_dim, units)] and is created for the
    input's last dimension on first use; a later input with another last
    dimension is rejected. *)
Record Dense : Type := mkDense {
  units : nat;
  use_bias : bool;
  kernel : tensor;
  bias : tensor
}.

Definition Dense_call (d : Dense) (x : tensor) : result tensor :=
  match shape x with
  | [] => Err InvalidArgumentError
  | _ :: _ =>
      let c := last (shape x) O in
      if shape_eqb (shape (kernel d)) [c; units d]
         && (negb (use_bias d) || shape_eqb (shape (bias d)) [units d]) then
        Ok {| shape := removelast (shape x) ++ [units d];
              elt := fun idx =>
                rsum c (fun k => elt x (removelast idx ++ [k])
                                 * elt (kernel d) [k; last idx O])
                + (if use_bias d then elt (bias d) [last idx O] else 0) |}
      else Err InvalidArgumentError
  end.

(** [layers.LayerNormalization(epsilon=...)]: normalises over the last axis,
    then scales by [gamma] and shifts by [beta] (both of shape [(C,)]). *)
Record LayerNormalization : Type := mkLayerNormalization {
  epsilon : R;
  gamma : tensor;
  beta : tensor
}.

Definition LayerNormalization_call (l : LayerNormalization) (x : tensor)
    : result tensor :=
  match shape x with
  | [] => Err InvalidArgumentError
  | _ :: _ =>
      let c := last (shape x) O in
      if shape_eqb (shape (gamma l)) [c] && shape_eqb (shape (beta l)) [c] then
        Ok {| shape := shape x;
              elt := fun idx =>
                let row := fun k => elt x (removelast idx ++ [k]) in
                let mean := rsum c row / INR c in
                let var := rsum c (fun k => (row k - mean) * (row k - mean)) / INR c in
                (elt x idx - mean) / sqrt (var + epsilon l)
                * elt (gamma l) [last idx O] + elt (beta l) [last idx O] |}
      else Err InvalidArgumentError
  end.

(** Keras creates [gamma] and [beta] for the last dimension of the first
    input: the layer is built for [c] channels. *)
Definition LayerNormalization_built_for (c : nat) (l : LayerNormalization) : bool :=
  shape_eqb (shape (gamma l)) [c] && shape_eqb (shape (beta l)) [c].

(** [layers.Conv1D(filters, kernel_size=1, activation=...)]: with a kernel of
    size 1 each time step is mapped on its own, so the layer acts on the last
    axis; it needs an input of rank 3 or more (all axes before the last two
    count as batch axes).  The kernel [(1, C, filters)] is stored here as
    [(C, filters)]. *)
Record Conv1D : Type := mkConv1D {
  filters : nat;
  activation_relu : bool;
  conv_kernel : tensor;
  conv_bias : tensor
}.

Definition relu (v : R) : R := Rmax 0 v.

Definition Conv1D_call (l : Conv1D) (x : tensor) : result tensor :=
  match shape x with
  | _ :: _ :: _ :: _ =>
      let c := last (shape x) O in
      if shape_eqb (shape (conv_kernel l)) [c; filters l]
         && shape_eqb (shape (conv_bias l)) [filters l] then
        Ok {| shape := removelast (shape x) ++ [filters l];
              elt := fun idx =>
                let v := rsum c (fun k => elt x (removelast idx ++ [k])
                                          * elt (conv_kernel l) [k; last idx O])
                         + elt (conv_bias l) [last idx O] in
                if activation_relu l then relu v else v |}
      else Err InvalidArgumentError
  | _ => Err InvalidArgumentError
  end.

(** [layers.Embedding(input_dim, output_dim)]: a table of shape
    [(input_dim, output_dim)], both positive; looking up an index outside the
    table is an error. *)
Record Embedding : Type := mkEmbedding {
  input_dim : nat;
  output_dim : nat;
  embeddings : tensor
}.

(** The constructor rejects a table without rows or without columns. *)
Definition Embedding_init (input_dim output_dim : nat) (embeddings : tensor)
    : result Embedding :=
  if (input_dim =? 0)%nat || (output_dim =? 0)%nat then Err ValueError
  else Ok (mkEmbedding input_dim output_dim embeddings).

Definition Embedding_call (l : Embedding) (idx : itensor) : result tensor :=
  if shape_eqb (shape (embeddings l)) [input_dim l; output_dim l]
     && forallb (fun i => (ielt idx i <? input_dim l)%nat) (indices (ishape idx)) then
    Ok {| shape := ishape idx ++ [output_dim l];
          elt := fun i => elt (embeddings l) [ielt idx (removelast i); last i O] |}
  else Err InvalidArgumentError.

(** [tf.range(0, n)]. *)
Definition tf_range (n : nat) : itensor :=
  {| ishape := [n]; ielt := fun idx => hd O idx |}.

(** [tf.constant(np.tril(np.ones((n, n))))]. *)
Definition tril_ones (n : nat) : tensor :=
  {| shape := [n; n];
     elt := fun idx => match idx with
                       | [i; j] => if (j <=? i)%nat then 1 else 0
                       | _ => 0
                       end |}.

(** ** Module-level names of the file (line 132) *)

Definition B : nat := 32.
Definition T : nat := 8.
Definition C : nat := 5.

(** ** [class Head] *)

Module Head.

(** [__init__] *)
Record t : Type := init {
  head_size : nat;
  seq_len : nat;
  dropout_rate : R
}.

(** The sublayers made by [build]; the three kernels are the layer's
    trainable state. *)
Record layers : Type := mkLayers {
  key : Dense;
  query : Dense;
  value : Dense;
  dropout : R;
  mask : tensor
}.

Definition zeros : tensor := {| shape := []; elt := fun _ => 0 |}.

Definition build (self : t) (w_key w_query w_value : tensor) : layers :=
  {| key := mkDense (head_size self) false w_key zeros;
     query := mkDense (head_size self) false w_query zeros;
     value := mkDense (head_size self) false w_value zeros;
     dropout := dropout_rate self;
     mask := tril_ones (seq_len self) |}.

(** The scores after the division of line 36, before the softmax. *)
Definition affinities (l : layers) (x : tensor) : result tensor :=
  k <- Dense_call (key l) x ;;
  q <- Dense_call (query l) x ;;
  k_transposed <- permute_dimensions_021 k ;;
  wei <- matmul q k_transposed ;;
  Ok (tmap (fun v => v / sqrt (INR C)) wei).

(** The attention weights: lines 30 to 38. *)
Definition weights (l : layers) (training : bool) (keep : list nat -> bool)
    (x : tensor) : result tensor :=
  wei <- affinities l x ;;
  wei <- Softmax_call wei (Some (mask l)) ;;
  Ok (Dropout_call (dropout l) training keep wei).

Definition call (self : t) (l : layers) (training : bool)
    (keep : list nat -> bool) (x : tensor) : result tensor :=
  wei <- weights l training keep x ;;
  v <- Dense_call (value l) x ;;
  out <- matmul wei v ;;
  match rev (shape out) with
  | d1 :: d2 :: _ =>
      if (d2 =? seq_len self)%nat && (d1 =? head_size self)%nat
      then Ok out else Err AssertionError
  | _ => Err IndexError
  end.

End Head.

(** ** [multi_head_self_attention_layer] and Keras' [MultiHeadAttention] *)

Module MultiHeadAttention.

(** [layers.MultiHeadAttention(key_dim, num_heads, output_shape, dropout)]
    with its trainable state.  Kernels: query, key and value
    [(C, num_heads, key_dim)] with biases [(num_heads, key_dim)]; output
    [(num_heads, key_dim, output_shape)] with bias [(output_shape,)]. *)
Record t : Type := init {
  key_dim : nat;
  num_heads : nat;
  output_shape : nat;
  dropout : R;
  query_kernel : tensor;
  query_bias : tensor;
  key_kernel : tensor;
  key_bias : tensor;
  value_kernel : tensor;
  value_bias : tensor;
  output_kernel : tensor;
  output_bias : tensor
}.

(** The query, key and value projections: [einsum("abc,cde->abde")] plus
    bias. *)
Definition project (self : t) (w b x : tensor) : result tensor :=
  match shape x with
  | [bs; t; c] =>
      if shape_eqb (shape w) [c; num_heads self; key_dim self]
         && shape_eqb (shape b) [num_heads self; key_dim self] then
        Ok {| shape := [bs; t; num_heads self; key_dim self];
              elt := fun idx =>
                match idx with
                | [n; i; h; d] =>
                    rsum c (fun k => elt x [n; i; k] * elt w [k; h; d]) + elt b [h; d]
                | _ => 0
                end |}
      else Err InvalidArgumentError
  | _ => Err InvalidArgumentError
  end.

(** Scaled dot products of every query position [i] with every key position
    [j], per head: shape [(B, num_heads, T, S)].  The factor is computed in
    Python as [1.0 / math.sqrt(float(key_dim))], which raises
    [ZeroDivisionError] for a [key_dim] of 0. *)
Definition attention_scores (self : t) (q k : tensor) : result tensor :=
  if (key_dim self =? 0)%nat then Err ZeroDivisionError else
  match shape q, shape k with
  | [bq; t; _; _], [bk; s; _; _] =>
      if (bq =? bk)%nat then
        Ok {| shape := [bq; num_heads self; t; s];
              elt := fun idx =>
                match idx with
                | [n; h; i; j] =>
                    rsum (key_dim self)
                      (fun d => elt k [n; j; h; d]
                                * (elt q [n; i; h; d] * (1 / sqrt (INR (key_dim self)))))
                | _ => 0
                end |}
      else Err InvalidArgumentError
  | _, _ => Err InvalidArgumentError
  end.

(** The attention probabilities: softmax over the key positions, masked only
    when an [attention_mask] is given, followed by dropout. *)
Definition attention_weights (self : t) (training : bool) (keep : list nat -> bool)
    (query key : tensor) (attention_mask : option tensor) : result tensor :=
  q <- project self (query_kernel self) (query_bias self) query ;;
  k <- project self (key_kernel self) (key_bias self) key ;;
  scores <- attention_scores self q k ;;
  scores <- Softmax_call scores attention_mask ;;
  Ok (Dropout_call (dropout self) training keep scores).

(** The weighted values of all heads, projected to [output_shape]. *)
Definition combine (self : t) (probs v : tensor) : result tensor :=
  match shape probs, shape v with
  | [bp; _; t; s], [bv; s'; _; _] =>
      if (bp =? bv)%nat && (s =? s')%nat
         && shape_eqb (shape (output_kernel self))
                      [num_heads self; key_dim self; output_shape self]
         && shape_eqb (shape (output_bias self)) [output_shape self] then
        Ok {| shape := [bp; t; output_shape self];
              elt := fun idx =>
                match idx with
                | [n; i; e] =>
                    rsum (num_heads self) (fun h =>
                      rsum (key_dim self) (fun d =>
                        rsum s (fun j => elt probs [n; h; i; j] * elt v [n; j; h; d])
                        * elt (output_kernel self) [h; d; e]))
                    + elt (output_bias self) [e]
                | _ => 0
                end |}
      else Err InvalidArgumentError
  | _, _ => Err InvalidArgumentError
  end.

(** [mha(query=..., value=..., key=..., attention_mask=...)]: the value is
    projected before the scores are computed. *)
Definition call (self : t) (training : bool) (keep : list nat -> bool)
    (query value key : tensor) (attention_mask : option tensor) : result tensor :=
  v <- project self (value_kernel self) (value_bias self) value ;;
  probs <- attention_weights self training keep query key attention_mask ;;
  combine self probs v.

(** The kernels and biases have the shapes Keras creates for an input with
    [c] channels. *)
Definition built_for (c : nat) (self : t) : bool :=
  shape_eqb (shape (query_kernel self)) [c; num_heads self; key_dim self]
  && shape_eqb (shape (query_bias self)) [num_heads self; key_dim self]
  && shape_eqb (shape (key_kernel self)) [c; num_heads self; key_dim self]
  && shape_eqb (shape (key_bias self)) [num_heads self; key_dim self]
  && shape_eqb (shape (value_kernel self)) [c; num_heads self; key_dim self]
  && shape_eqb (shape (value_bias self)) [num_heads self; key_dim self]
  && shape_eqb (shape (output_kernel self))
               [num_heads self; key_dim self; output_shape self]
  && shape_eqb (shape (output_bias self)) [output_shape self].

(** The trainable tensors of the layer, as Keras creates them. *)
Record params : Type := mkParams {
  p_query_kernel : tensor;
  p_query_bias : tensor;
  p_key_kernel : tensor;
  p_key_bias : tensor;
  p_value_kernel : tensor;
  p_value_bias : tensor;
  p_output_kernel : tensor;
  p_output_bias : tensor
}.

End MultiHeadAttention.

(** [def multi_head_self_attention_layer(num_heads, head_size, dropout=0.)]:
    an absent [dropout] argument takes the default of the signature. *)
Definition multi_head_self_attention_layer (num_heads head_size : nat)
    (dropout : option R) (p : MultiHeadAttention.params) : MultiHeadAttention.t :=
  MultiHeadAttention.init head_size num_heads (num_heads * head_size)
    (match dropout with Some r => r | None => 0 end)
    (MultiHeadAttention.p_query_kernel p) (MultiHeadAttention.p_query_bias p)
    (MultiHeadAttention.p_key_kernel p) (MultiHeadAttention.p_key_bias p)
    (MultiHeadAttention.p_value_kernel p) (MultiHeadAttention.p_value_bias p)
    (MultiHeadAttention.p_output_kernel p) (MultiHeadAttention.p_output_bias p).

(** The closure [_call] returned by [multi_head_self_attention_layer]. *)
Definition multi_head_self_attention_call (mha : MultiHeadAttention.t)
    (training : bool) (keep : list nat -> bool) (x : tensor) : result tensor :=
  MultiHeadAttention.call mha training keep x x x None.

(** ** [class FeedForward] *)

Module FeedForward.

(** [__init__] *)
Record t : Type := init {
  n_embd : nat;
  dropout : R
}.

(** The layers a [keras.Sequential] can hold here. *)
Inductive layer : Type :=
| LayerNormalizationL (l : LayerNormalization)
| Conv1DL (l : Conv1D)
| DropoutL (rate : R).

(** The trainable tensors of the four layers. *)
Record params : Type := mkParams {
  ln_gamma : tensor;
  ln_beta : tensor;
  conv1_kernel : tensor;
  conv1_bias : tensor;
  conv2_kernel : tensor;
  conv2_bias : tensor
}.

(** [build]: the list given to [keras.Sequential]. *)
Definition build (self : t) (p : params) : list layer :=
  [ LayerNormalizationL (mkLayerNormalization (1 / 1000000) (ln_gamma p) (ln_beta p));
    Conv1DL (mkConv1D 4 true (conv1_kernel p) (conv1_bias p));
    Conv1DL (mkConv1D (n_embd self) false (conv2_kernel p) (conv2_bias p));
    DropoutL (dropout self) ].

Definition layer_call (training : bool) (keep : list nat -> bool) (l : layer)
    (x : tensor) : result tensor :=
  match l with
  | LayerNormalizationL ln => LayerNormalization_call ln x
  | Conv1DL c => Conv1D_call c x
  | DropoutL rate => Ok (Dropout_call rate training keep x)
  end.

(** [keras.Sequential(layers)(x)]: the layers one after the other. *)
Fixpoint Sequential_call (training : bool) (keep : list nat -> bool)
    (net : list layer) (x : tensor) : result tensor :=
  match net with
  | [] => Ok x
  | l :: net' =>
      y <- layer_call training keep l x ;;
      Sequential_call training keep net' y
  end.

Definition call (net : list layer) (training : bool) (keep : list nat -> bool)
    (x : tensor) : result tensor :=
  Sequential_call training keep net x.

(** The number of channels a layer produces from [c] channels. *)
Definition layer_channels (c : nat) (l : layer) : nat :=
  match l with
  | Conv1DL cv => filters cv
  | _ => c
  end.

Fixpoint Sequential_channels (c : nat) (net : list layer) : nat :=
  match net with
  | [] => c
  | l :: net' => Sequential_channels (layer_channels c l) net'
  end.

(** Every layer of the list has the weights Keras creates for the number of
    channels that reaches it. *)
Definition layer_built_for (c : nat) (l : layer) : bool :=
  match l with
  | LayerNormalizationL ln => LayerNormalization_built_for c ln
  | Conv1DL cv =>
      shape_eqb (shape (conv_kernel cv)) [c; filters cv]
      && shape_eqb (shape (conv_bias cv)) [filters cv]
  | DropoutL _ => true
  end.

Fixpoint Sequential_built_for (c : nat) (net : list layer) : bool :=
  match net with
  | [] => true
  | l :: net' => layer_built_for c l && Sequential_built_for (layer_channels c l) net'
  end.


End FeedForward.

(** ** [class Block] *)

Module Block.

(** [__init__]: the [assert] comes first; [%] by zero raises before it. *)
Record t : Type := mk {
  n_embd : nat;
  n_head : nat;
  head_size : nat;
  dropout : R
}.

Definition init (n_embd n_head : nat) (dropout : R) : result t :=
  if (n_head =? 0)%nat then Err ZeroDivisionError
  else if (n_embd mod n_head =? 0)%nat then
    Ok {| n_embd := n_embd; n_head := n_head;
          head_size := n_embd / n_head; dropout := dropout |}
  else Err AssertionError.

(** The trainable tensors of the block's sublayers. *)
Record params : Type := mkParams {
  sa_params : MultiHeadAttention.params;
  ffwd_params : FeedForward.params;
  ln1_gamma : tensor;
  ln1_beta : tensor;
  ln2_gamma : tensor;
  ln2_beta : tensor
}.

(** The sublayers made by [build]. *)
Record layers : Type := mkLayers {
  sa : MultiHeadAttention.t;
  ffwd_config : FeedForward.t;
  ffwd : list FeedForward.layer;
  ln1 : LayerNormalization;
  ln2 : LayerNormalization
}.

Definition build (self : t) (p : params) : layers :=
  let ff := FeedForward.init (n_embd self) (dropout self) in
  {| sa := multi_head_self_attention_layer (n_head self) (head_size self) None
             (sa_params p);
     ffwd_config := ff;
     ffwd := FeedForward.build ff (ffwd_params p);
     ln1 := mkLayerNormalization (1 / 100000) (ln1_gamma p) (ln1_beta p);
     ln2 := mkLayerNormalization (1 / 100000) (ln2_gamma p) (ln2_beta p) |}.

(** The attention branch [self.sa(self.ln1(x))] of line 97. *)
Definition attention_path (l : layers) (training : bool)
    (keep_sa : list nat -> bool) (x : tensor) : result tensor :=
  n <- LayerNormalization_call (ln1 l) x ;;
  multi_head_self_attention_call (sa l) training keep_sa n.

(** The feed-forward branch [self.ffwd(self.ln2(x))] of line 98. *)
Definition ffwd_path (l : layers) (training : bool)
    (keep_ff : list nat -> bool) (x : tensor) : result tensor :=
  n <- LayerNormalization_call (ln2 l) x ;;
  FeedForward.call (ffwd l) training keep_ff n.

Definition call (l : layers) (training : bool)
    (keep_sa keep_ff : list nat -> bool) (x : tensor) : result tensor :=
  a <- attention_path l training keep_sa x ;;
  x <- tadd x a ;;
  f <- ffwd_path l training keep_ff x ;;
  x <- tadd x f ;;
  Ok x.

(** All sublayers have the weights Keras creates for an input with [c]
    channels. *)
Definition built_for (c : nat) (l : layers) : bool :=
  LayerNormalization_built_for c (ln1 l)
  && LayerNormalization_built_for c (ln2 l)
  && MultiHeadAttention.built_for c (sa l)
  && FeedForward.Sequential_built_for c (ffwd l).

End Block.


(** ** [class TransformerLayer] *)

Module TransformerLayer.

(** [__init__] *)
Record t : Type := init {
  vocab_size : nat;
  n_embd : nat;
  n_head : nat;
  n_block : nat;
  dropout : R
}.

(** The trainable tensors; [block_params k] are those of the [k]-th block. *)
Record params : Type := mkParams {
  token_embeddings : tensor;
  position_embeddings : tensor;
  block_params : nat -> Block.params;
  ln_f_gamma : tensor;
  ln_f_beta : tensor;
  lm_head_kernel : tensor;
  lm_head_bias : tensor
}.

(** The attributes set by [build]. *)
Record layers : Type := mkLayers {
  block_size : nat;
  token_embedding_table : Embedding;
  position_embedding_table : Embedding;
  blocks : list Block.layers;
  ln_f : LayerNormalization;
  lm_head : Dense
}.

(** [[Block(n_embd, n_head, dropout) for _ in range(n_block)]], each block
    with its own sublayers. *)
Fixpoint make_blocks (self : t) (p : params) (ks : list nat)
    : result (list Block.layers) :=
  match ks with
  | [] => Ok []
  | k :: ks' =>
      b <- Block.init (n_embd self) (n_head self) (dropout self) ;;
      bs <- make_blocks self p ks' ;;
      Ok (Block.build b (block_params p k) :: bs)
  end.

Definition build (self : t) (p : params) (input_shape : list nat) : result layers :=
  match input_shape with
  | _ :: bsz :: _ =>
      tok <- Embedding_init (vocab_size self) (n_embd self) (token_embeddings p) ;;
      pos <- Embedding_init bsz (n_embd self) (position_embeddings p) ;;
      bs <- make_blocks self p (seq 0 (n_block self)) ;;
      Ok {| block_size := bsz;
            token_embedding_table := tok;
            position_embedding_table := pos;
            blocks := bs;
            ln_f := mkLayerNormalization (1 / 100000) (ln_f_gamma p) (ln_f_beta p);
            lm_head := mkDense (vocab_size self) true (lm_head_kernel p) (lm_head_bias p) |}
  | _ => Err IndexError
  end.

(** [keras.Sequential(blocks)(x)]; the [k]-th block draws its dropout masks
    from [keep_sa k] and [keep_ff k]. *)
Fixpoint blocks_call (bs : list Block.layers) (training : bool)
    (keep_sa keep_ff : nat -> list nat -> bool) (k : nat) (x : tensor)
    : result tensor :=
  match bs with
  | [] => Ok x
  | b :: bs' =>
      y <- Block.call b training (keep_sa k) (keep_ff k) x ;;
      blocks_call bs' training keep_sa keep_ff (S k) y
  end.

(** The sum of token and position embeddings: lines 123 to 125. *)
Definition embed (l : layers) (idx : itensor) : result tensor :=
  tok_emb <- Embedding_call (token_embedding_table l) idx ;;
  pos_emb <- Embedding_call (position_embedding_table l) (tf_range (block_size l)) ;;
  tadd tok_emb pos_emb.

Definition call (l : layers) (training : bool)
    (keep_sa keep_ff : nat -> list nat -> bool) (idx : itensor) : result tensor :=
  x <- embed l idx ;;
  x <- blocks_call (blocks l) training keep_sa keep_ff 0 x ;;
  x <- LayerNormalization_call (ln_f l) x ;;
  logits <- Dense_call (lm_head l) x ;;
  Ok logits.

(** The tables, the blocks, the final normalisation and the output layer have
    the weights Keras creates for them. *)
Definition built_for (self : t) (l : layers) : bool :=
  shape_eqb (shape (embeddings (token_embedding_table l)))
            [vocab_size self; n_embd self]
  && shape_eqb (shape (embeddings (position_embedding_table l)))
               [block_size l; n_embd self]
  && forallb (Block.built_for (n_embd self)) (blocks l)
  && LayerNormalization_built_for (n_embd self) (ln_f l)
  && shape_eqb (shape (kernel (lm_head l))) [n_embd self; vocab_size self]
  && shape_eqb (shape (bias (lm_head l))) [vocab_size self].

End TransformerLayer.

(** Every block of the list comes from [Block.init] with the model's
    configuration. *)
Definition made_by (self : TransformerLayer.t) (bl : Block.layers) : Prop :=
  exists b pk,
    Block.init (TransformerLayer.n_embd self) (TransformerLayer.n_head self)
      (TransformerLayer.dropout self) = Ok b
    /\ bl = Block.build b pk.

(** ** The module-level script (lines 132 to 136) *)

Definition head : Head.t := Head.init 3 T 0.

(** ** Concrete inputs *)

Definition ones (s : list nat) : tensor := {| shape := s; elt := fun _ => 1 |}.

(** A head of size 1 over sequences of length 2 with two input channels: the
    query reads channel 0 negated, the key reads channel 0 and the value
    reads channel 1. *)
Definition leak_head : Head.t := Head.init 1 2 0.

Definition leak_w_query : tensor :=
  {| shape := [2; 1]%nat;
     elt := fun idx => match idx with [O; O] => -1 | _ => 0 end |}.

Definition leak_w_key : tensor :=
  {| shape := [2; 1]%nat;
     elt := fun idx => match idx with [O; O] => 1 | _ => 0 end |}.

Definition leak_w_value : tensor :=
  {| shape := [2; 1]%nat;
     elt := fun idx => match idx with [S O; O] => 1 | _ => 0 end |}.

Definition leak_layers : Head.layers :=
  Head.build leak_head leak_w_key leak_w_query leak_w_value.

(** One sequence of two steps: step 0 is [(100000, 0)], step 1 is [(0, v)]. *)
Definition leak_x (v : R) : tensor :=
  {| shape := [1; 2; 2]%nat;
     elt := fun idx => match idx with
                       | [O; O; O] => 100000
                       | [O; S O; S O] => v
                       | _ => 0
                       end |}.

(** A block of width 2 with one head, all of whose weights are 1. *)
Definition unit_block : Block.t := Block.mk 2 1 2 0.

Definition unit_block_params : Block.params :=
  Block.mkParams
    (MultiHeadAttention.mkParams
       (ones [2; 1; 2]%nat) (ones [1; 2]%nat) (ones [2; 1; 2]%nat) (ones [1; 2]%nat)
       (ones [2; 1; 2]%nat) (ones [1; 2]%nat) (ones [1; 2; 2]%nat) (ones [2]%nat))
    (FeedForward.mkParams
       (ones [2]%nat) (ones [2]%nat) (ones [2; 4]%nat) (ones [4]%nat)
       (ones [4; 2]%nat) (ones [2]%nat))
    (ones [2]%nat) (ones [2]%nat) (ones [2]%nat) (ones [2]%nat).

(** A feed-forward net of width 5 (the module-level [C]). *)
Definition ff5 : FeedForward.t := FeedForward.init 5 0.

Definition ff5_params : FeedForward.params :=
  FeedForward.mkParams
    (ones [5]%nat) (ones [5]%nat) (ones [5; 4]%nat) (ones [4]%nat)
    (ones [4; 5]%nat) (ones [5]%nat).

(** A model with a vocabulary of 2 tokens, width 2, one head and one block,
    all of whose weights are 1, for sequences of length [bsz]. *)
Definition tiny_model : TransformerLayer.t := TransformerLayer.init 2 2 1 1 0.

Definition tiny_params (bsz : nat) : TransformerLayer.params :=
  TransformerLayer.mkParams (ones [2; 2]%nat) (ones [bsz; 2]%nat)
    (fun _ => unit_block_params) (ones [2]%nat) (ones [2]%nat)
    (ones [2; 2]%nat) (ones [2]%nat).

(** A batch of [b] sequences of [t] tokens, all of them token 0. *)
Definition zero_tokens (b t : nat) : itensor :=
  {| ishape := [b; t]; ielt := fun _ => O |}.

(** An attention layer with one head of size 1 over one input channel: all
    kernels are 1 and all biases 0 (the initial value Keras gives biases). *)
Definition zeros_of (s : list nat) : tensor := {| shape := s; elt := fun _ => 0 |}.

Definition one_head_params : MultiHeadAttention.params :=
  MultiHeadAttention.mkParams
    (ones [1; 1; 1]%nat) (zeros_of [1; 1]%nat) (ones [1; 1; 1]%nat) (zeros_of [1; 1]%nat)
    (ones [1; 1; 1]%nat) (zeros_of [1; 1]%nat) (ones [1; 1; 1]%nat) (zeros_of [1]%nat).

Definition one_head : MultiHeadAttention.t :=
  multi_head_self_attention_layer 1 1 None one_head_params.

(** One sequence of two steps over one channel: step 0 is 0, step 1 is [v]. *)
Definition two_steps (v : R) : tensor :=
  {| shape := [1; 2; 1]%nat;
     elt := fun idx => match idx with
                       | [O; S O; O] => v
                       | _ => 0
                       end |}.



(** * Properties *)

(** ** Shapes, sums and the softmax *)

Lemma bind_Ok {A B0 : Type} (r : result A) (k : A -> result B0) (b : B0) :
  bind r k = Ok b -> exists a, r = Ok a /\ k a = Ok b.
Proof.
  destruct r as [a|e]; simpl; [|discriminate]. intros H. now exists a.
Qed.

Lemma shape_eqb_refl (s : list nat) : shape_eqb s s = true.
Proof.
  induction s as [|d s IH]; simpl; [reflexivity|].
  now rewrite Nat.eqb_refl, IH.
Qed.


Lemma bshape_rev_same (s : list nat) : bshape_rev s s = Some s.
Proof.
  induction s as [|d s IH]; simpl; [reflexivity|].
  now rewrite IH, Nat.eqb_refl.
Qed.

Lemma broadcast_shape_same (s : list nat) : broadcast_shape s s = Some s.
Proof.
  unfold broadcast_shape. rewrite bshape_rev_same. simpl. now rewrite rev_involutive.
Qed.

Lemma tadd_same_shape (x y : tensor) :
  shape x = shape y ->
  exists z, tadd x y = Ok z /\ shape z = shape x.
Proof.
  intros H. unfold tadd. rewrite <- H, broadcast_shape_same.
  eexists; split; [reflexivity|reflexivity].
Qed.

Lemma rsum_ext (n : nat) (f g : nat -> R) :
  (forall k, (k < n)%nat -> f k = g k) -> rsum n f = rsum n g.
Proof.
  induction n as [|n IH]; intros H; simpl; [reflexivity|].
  rewrite IH by (intros; apply H; lia). now rewrite H by lia.
Qed.

Lemma rsum_nonneg (n : nat) (f : nat -> R) :
  (forall k, (k < n)%nat -> 0 <= f k) -> 0 <= rsum n f.
Proof.
  induction n as [|n IH]; intros H; simpl; [lra|].
  assert (0 <= rsum n f) by (apply IH; intros; apply H; lia).
  assert (0 <= f n) by (apply H; lia). lra.
Qed.

(** One term of a sum of non-negative terms is at most the sum. *)
Lemma rsum_term_le (n : nat) (f : nat -> R) (i : nat) :
  (forall k, (k < n)%nat -> 0 <= f k) -> (i < n)%nat -> f i <= rsum n f.
Proof.
  induction n as [|n IH]; intros H Hi; [lia|]. simpl.
  assert (H0 : 0 <= rsum n f) by (apply rsum_nonneg; intros; apply H; lia).
  assert (Hn : 0 <= f n) by (apply H; lia).
  destruct (Nat.eq_dec i n) as [->|Hne]; [lra|].
  assert (f i <= rsum n f) by (apply IH; [intros; apply H; lia | lia]). lra.
Qed.

Lemma rsum_exp_pos (n : nat) (f : nat -> R) :
  (0 < n)%nat -> 0 < rsum n (fun k => exp (f k)).
Proof.
  intros Hn.
  assert (H : exp (f O) <= rsum n (fun k => exp (f k))).
  { apply (rsum_term_le n (fun k => exp (f k)) O); [|exact Hn].
    intros; left; apply exp_pos. }
  pose proof (exp_pos (f O)). lra.
Qed.

(** ** [Head]: the shape of the output *)

Lemma Dropout_call_shape (rate : R) (training : bool) (keep : list nat -> bool)
    (x : tensor) :
  shape (Dropout_call rate training keep x) = shape x.
Proof.
  unfold Dropout_call. destruct (Req_dec_T rate 0); [reflexivity|].
  destruct training; reflexivity.
Qed.

Lemma Head_affinities_ok (self : Head.t) (w_key w_query w_value x : tensor)
    (Bn Tn Cn : nat) :
  shape x = [Bn; Tn; Cn] ->
  shape w_key = [Cn; Head.head_size self] ->
  shape w_query = [Cn; Head.head_size self] ->
  exists wei,
    Head.affinities (Head.build self w_key w_query w_value) x = Ok wei
    /\ shape wei = [Bn; Tn; Tn]
    /\ forall n i j,
         elt wei [n; i; j]
         = rsum (Head.head_size self) (fun h =>
             rsum Cn (fun c => elt x [n; i; c] * elt w_query [c; h])
             * rsum Cn (fun c => elt x [n; j; c] * elt w_key [c; h]))
           / sqrt (INR C).
Proof.
  intros Hx Hk Hq.
  unfold Head.affinities, Dense_call; simpl.
  rewrite Hx, Hk, Hq; simpl.
  rewrite !Nat.eqb_refl; simpl.
  unfold permute_dimensions_021, matmul; simpl.
  rewrite !Nat.eqb_refl; simpl.
  eexists; split; [reflexivity|]. split; [reflexivity|].
  intros n i j; simpl. f_equal. apply rsum_ext; intros h _.
  now rewrite !Rplus_0_r.
Qed.

Lemma Head_weights_ok (self : Head.t) (w_key w_query w_value x : tensor)
    (training : bool) (keep : list nat -> bool) (Bn Cn : nat) :
  shape x = [Bn; Head.seq_len self; Cn] ->
  shape w_key = [Cn; Head.head_size self] ->
  shape w_query = [Cn; Head.head_size self] ->
  exists wei,
    Head.weights (Head.build self w_key w_query w_value) training keep x = Ok wei
    /\ shape wei = [Bn; Head.seq_len self; Head.seq_len self].
Proof.
  intros Hx Hk Hq.
  destruct (Head_affinities_ok self w_key w_query w_value x _ _ _ Hx Hk Hq)
    as (a & Ha & Hs & _).
  unfold Head.weights. rewrite Ha; simpl.
  unfold Softmax_call, tadd; simpl. rewrite Hs.
  unfold broadcast_shape; simpl. rewrite !Nat.eqb_refl; simpl.
  eexists; split; [reflexivity|].
  now rewrite Dropout_call_shape.
Qed.



Lemma INR_C : INR C = 5.
Proof. unfold C; simpl; lra. Qed.

Lemma sqrt_C_pos : 0 < sqrt (INR C).
Proof. apply sqrt_lt_R0. rewrite INR_C. lra. Qed.

Lemma sqrt_C_lt_10 : sqrt (INR C) < 10.
Proof.
  rewrite INR_C.
  assert (H : sqrt 5 * sqrt 5 = 5) by (apply sqrt_sqrt; lra).
  assert (H0 : 0 <= sqrt 5) by apply sqrt_pos.
  nra.
Qed.

(** C2: the scores are divided by the square root of the module-level [C]
    (5), not of the head size.  For the head of the script ([head_size] 3) on
    an all-ones input with all-ones kernels the raw score is 3 and the scaled
    score is [3 / sqrt 5], which is not [3 / sqrt head_size]. *)
Theorem Head_scale_uses_global_C :
  exists wei,
    Head.affinities (Head.build head (ones [1; 3]%nat) (ones [1; 3]%nat) (ones [1; 3]%nat))
      (ones [1; T; 1]%nat) = Ok wei
    /\ elt wei [0; 0; 0]%nat = 3 / sqrt 5
    /\ elt wei [0; 0; 0]%nat <> 3 / sqrt (INR (Head.head_size head)).
Proof.
  destruct (Head_affinities_ok head (ones [1; 3]%nat) (ones [1; 3]%nat) (ones [1; 3]%nat)
              (ones [1; T; 1]%nat) 1 T 1 eq_refl eq_refl eq_refl) as (wei & Hw & _ & He).
  exists wei. split; [exact Hw|].
  assert (Hval : elt wei [0; 0; 0]%nat = 3 / sqrt 5).
  { rewrite He. rewrite INR_C. simpl. f_equal. lra. }
  split; [exact Hval|].
  rewrite Hval. simpl. replace (1 + 1 + 1) with 3 by lra.
  intros Heq.
  assert (H5 : 0 < sqrt 5) by (apply sqrt_lt_R0; lra).
  assert (H3 : 0 < sqrt 3) by (apply sqrt_lt_R0; lra).
  assert (Hs : sqrt 5 = sqrt 3).
  { apply (f_equal (fun v => v * sqrt 5 * sqrt 3 / 3)) in Heq.
    field_simplify in Heq; lra. }
  apply sqrt_inj in Hs; lra.
Qed.

Lemma half_lt_mix (a b v0 v1 : R) :
  0 < a -> a < b -> v0 = 0 -> v1 = 1 ->
  1 / 2 < 0 + a / (0 + a + b) * v0 + b / (0 + a + b) * v1.
Proof.
  intros Ha Hab -> ->.
  apply (Rmult_lt_reg_r (0 + a + b)); [lra|].
  replace ((0 + a / (0 + a + b) * 0 + b / (0 + a + b) * 1) * (0 + a + b))
    with b by (field; lra).
  lra.
Qed.

Lemma half_lt_ratio (a b : R) : 0 < a -> a < b -> 1 / 2 < b / (0 + a + b).
Proof.
  intros Ha Hab. pose proof (half_lt_mix a b 0 1 Ha Hab eq_refl eq_refl). lra.
Qed.

Lemma mix_zero (p q v0 v1 : R) : v0 = 0 -> v1 = 0 -> 0 + p * v0 + q * v1 = 0.
Proof. intros -> ->. lra. Qed.

Lemma inv_sqrt_C_bound : / 10 < / sqrt (INR C).
Proof.
  pose proof sqrt_C_pos. pose proof sqrt_C_lt_10.
  apply Rinv_lt_contravar; lra.
Qed.

(** With a diagonal score of [- 10^10 / sqrt C] the penalty [- 10^9] of the
    mask leaves the future position the larger logit. *)
Ltac leak_exp_lt :=
  let H := fresh "Hinv" in
  pose proof inv_sqrt_C_bound as H; unfold C in H; simpl in H;
  apply exp_increasing; unfold large_compatible_negative, Rdiv; lra.

(** C4: on [leak_x 0] the masked softmax of [Head] gives the future position
    1 more than half of the weight of row 0, so the entry is not 0. *)
Theorem Head_future_weight_not_zero :
  exists wei,
    Head.weights leak_layers false (fun _ => true) (leak_x 0) = Ok wei
    /\ 1 / 2 < elt wei [0; 0; 1]%nat.
Proof.
  unfold Head.weights, Head.affinities, Dense_call, leak_layers; simpl.
  unfold permute_dimensions_021, matmul; simpl.
  unfold Softmax_call, tadd; simpl.
  unfold Dropout_call; simpl.
  destruct (Req_dec_T 0 0) as [_|Hne]; [|now elim Hne].
  eexists; split; [reflexivity|]. simpl.
  apply half_lt_ratio; [apply exp_pos|leak_exp_lt].
Qed.

(** C5: [leak_x 0] and [leak_x 1] differ only at position 1, yet the output
    of [Head.call] at position 0 is 0 for the first and above 1/2 for the
    second. *)
Theorem Head_leaks_future_input :
  exists out out',
    Head.call leak_head leak_layers false (fun _ => true) (leak_x 0) = Ok out
    /\ Head.call leak_head leak_layers false (fun _ => true) (leak_x 1) = Ok out'
    /\ (forall n t c, t <> 1%nat -> elt (leak_x 0) [n; t; c] = elt (leak_x 1) [n; t; c])
    /\ elt out [0; 0; 0]%nat = 0
    /\ 1 / 2 < elt out' [0; 0; 0]%nat.
Proof.
  unfold Head.call, Head.weights, Head.affinities, Dense_call, leak_layers; simpl.
  unfold permute_dimensions_021, matmul; simpl.
  unfold Softmax_call, tadd; simpl.
  unfold Dropout_call; simpl.
  destruct (Req_dec_T 0 0) as [_|Hne]; [|now elim Hne].
  simpl.
  do 2 eexists. split; [reflexivity|]. split; [reflexivity|]. simpl.
  split; [|split].
  - intros n t c Ht.
    destruct n as [|n]; [|reflexivity].
    destruct t as [|[|t]]; [reflexivity| now elim Ht | reflexivity].
  - apply mix_zero; lra.
  - apply half_lt_mix; [apply exp_pos | leak_exp_lt | lra | lra].
Qed.

(** ** [Block.__init__] *)

(** C7: when the head count does not divide the embedding width the
    construction fails with the [AssertionError] of line 82 (a head count of
    zero fails in the [%] itself), in particular for [n_embd = 5] and
    [n_head = 2]; when it divides, the construction succeeds with
    [head_size = n_embd / n_head]; and no block is ever made whose heads do
    not add up to the embedding width. *)
Theorem Block_init_divisibility (n_embd n_head : nat) (dropout : R) :
  (n_head <> 0%nat -> n_embd mod n_head <> 0%nat ->
     Block.init n_embd n_head dropout = Err AssertionError)
  /\ (n_head = 0%nat -> Block.init n_embd n_head dropout = Err ZeroDivisionError)
  /\ Block.init 5 2 dropout = Err AssertionError
  /\ (n_head <> 0%nat -> n_embd mod n_head = 0%nat ->
        Block.init n_embd n_head dropout
        = Ok (Block.mk n_embd n_head (n_embd / n_head) dropout))
  /\ (forall b, Block.init n_embd n_head dropout = Ok b ->
        Block.head_size b = (n_embd / n_head)%nat
        /\ (Block.n_head b * Block.head_size b = Block.n_embd b)%nat).
Proof.
  unfold Block.init. split; [|split; [|split; [|split]]].
  - intros Hh Hm. apply Nat.eqb_neq in Hh, Hm. now rewrite Hh, Hm.
  - intros ->. reflexivity.
  - reflexivity.
  - intros Hh Hm. apply Nat.eqb_neq in Hh. rewrite Hh, Hm. reflexivity.
  - intros b.
    destruct (n_head =? 0)%nat eqn:Hh; [discriminate|].
    destruct (n_embd mod n_head =? 0)%nat eqn:Hm; [|discriminate].
    intros [= <-]. simpl. split; [reflexivity|].
    apply Nat.eqb_eq in Hm.
    symmetry. now apply Nat.Div0.div_exact.
Qed.

(** Width 6 with 2 heads gives heads of size 3; width 5 with 2 heads fails. *)
Lemma Block_init_divisibility_witness :
  Block.init 6 2 0 = Ok (Block.mk 6 2 3 0)
  /\ Block.init 5 2 0 = Err AssertionError.
Proof.
  destruct (Block_init_divisibility 6 2 0) as (_ & _ & H52 & Hok & _).
  split; [apply Hok; [discriminate | reflexivity] | exact H52].
Defined.

(** ** Shapes through the sublayers of a block *)

Lemma LayerNormalization_call_shape (l : LayerNormalization) (x : tensor)
    (Bn Tn Cn : nat) :
  shape x = [Bn; Tn; Cn] ->
  LayerNormalization_built_for Cn l = true ->
  exists y, LayerNormalization_call l x = Ok y /\ shape y = [Bn; Tn; Cn].
Proof.
  intros Hx Hb. unfold LayerNormalization_call. rewrite Hx; simpl.
  unfold LayerNormalization_built_for in Hb. rewrite Hb.
  eexists; split; reflexivity.
Qed.

Lemma Conv1D_call_shape (l : Conv1D) (x : tensor) (Bn Tn Cn : nat) :
  shape x = [Bn; Tn; Cn] ->
  shape_eqb (shape (conv_kernel l)) [Cn; filters l]
  && shape_eqb (shape (conv_bias l)) [filters l] = true ->
  exists y, Conv1D_call l x = Ok y /\ shape y = [Bn; Tn; filters l].
Proof.
  intros Hx Hb. unfold Conv1D_call. rewrite Hx. cbn [last]. rewrite Hb.
  eexists; split; reflexivity.
Qed.

Lemma Sequential_call_shape (net : list FeedForward.layer) :
  forall (training : bool) (keep : list nat -> bool) (x : tensor) (Bn Tn Cn : nat),
    shape x = [Bn; Tn; Cn] ->
    FeedForward.Sequential_built_for Cn net = true ->
    exists y,
      FeedForward.Sequential_call training keep net x = Ok y
      /\ shape y = [Bn; Tn; FeedForward.Sequential_channels Cn net].
Proof.
  induction net as [|l net IH]; intros training keep x Bn Tn Cn Hx Hb; simpl.
  - eexists; split; [reflexivity|exact Hx].
  - simpl in Hb. apply andb_true_iff in Hb as [Hl Hnet].
    destruct l as [ln|cv|rate]; simpl in *.
    + destruct (LayerNormalization_call_shape ln x Bn Tn Cn Hx Hl) as (y & -> & Hy).
      simpl. now apply IH.
    + destruct (Conv1D_call_shape cv x Bn Tn Cn Hx Hl) as (y & -> & Hy).
      simpl. now apply IH.
    + apply IH; [|exact Hnet]. now rewrite Dropout_call_shape.
Qed.

Lemma multi_head_self_attention_call_shape (mha : MultiHeadAttention.t)
    (training : bool) (keep : list nat -> bool) (x : tensor) (Bn Tn Cn : nat) :
  shape x = [Bn; Tn; Cn] ->
  MultiHeadAttention.built_for Cn mha = true ->
  (0 < MultiHeadAttention.key_dim mha)%nat ->
  exists y,
    multi_head_self_attention_call mha training keep x = Ok y
    /\ shape y = [Bn; Tn; MultiHeadAttention.output_shape mha].
Proof.
  intros Hx Hb Hk. unfold MultiHeadAttention.built_for in Hb.
  repeat (apply andb_true_iff in Hb as [Hb ?]).
  assert (Hk0 : (MultiHeadAttention.key_dim mha =? 0)%nat = false)
    by (apply Nat.eqb_neq; lia).
  unfold multi_head_self_attention_call, MultiHeadAttention.call,
    MultiHeadAttention.attention_weights, MultiHeadAttention.project.
  rewrite Hx.
  repeat match goal with H : shape_eqb _ _ = true |- _ => rewrite H; clear H end.
  simpl. unfold MultiHeadAttention.attention_scores; simpl.
  rewrite Hk0, Nat.eqb_refl; simpl.
  unfold MultiHeadAttention.combine. rewrite Dropout_call_shape; simpl.
  rewrite !Nat.eqb_refl, H0, H; simpl.
  eexists; split; reflexivity.
Qed.

(** The heads of a block of positive width have a positive size. *)
Lemma Block_init_head_size_pos (n_embd n_head : nat) (dropout : R) (self : Block.t) :
  Block.init n_embd n_head dropout = Ok self ->
  (0 < Block.n_embd self)%nat ->
  (0 < Block.head_size self)%nat.
Proof.
  unfold Block.init.
  destruct (n_head =? 0)%nat; [discriminate|].
  destruct (n_embd mod n_head =? 0)%nat eqn:Hm; [|discriminate].
  intros [= <-]. simpl. intros Hn.
  apply Nat.eqb_eq in Hm. apply Nat.Div0.div_exact in Hm.
  destruct (n_embd / n_head)%nat; lia.
Qed.

Lemma Block_build_output_shape (n_embd n_head : nat) (dropout : R) (self : Block.t)
    (p : Block.params) :
  Block.init n_embd n_head dropout = Ok self ->
  MultiHeadAttention.output_shape (Block.sa (Block.build self p)) = Block.n_embd self
  /\ FeedForward.Sequential_channels (Block.n_embd self) (Block.ffwd (Block.build self p))
     = Block.n_embd self.
Proof.
  intros Hi. split; [|reflexivity]. simpl.
  unfold Block.init in Hi.
  destruct (n_head =? 0)%nat; [discriminate|].
  destruct (n_embd mod n_head =? 0)%nat eqn:Hm; [|discriminate].
  injection Hi as <-. simpl. apply Nat.eqb_eq in Hm.
  symmetry. now apply Nat.Div0.div_exact.
Qed.

(** A block of positive width made by [Block.init] and built for its
    embedding width maps [(B, T, n_embd)] to [(B, T, n_embd)]. *)
Lemma Block_call_shape (n_embd n_head : nat) (dropout : R) (self : Block.t)
    (p : Block.params) (training : bool) (keep_sa keep_ff : list nat -> bool)
    (x : tensor) (Bn Tn : nat) :
  Block.init n_embd n_head dropout = Ok self ->
  (0 < Block.n_embd self)%nat ->
  Block.built_for (Block.n_embd self) (Block.build self p) = true ->
  shape x = [Bn; Tn; Block.n_embd self] ->
  exists y,
    Block.call (Block.build self p) training keep_sa keep_ff x = Ok y
    /\ shape y = shape x.
Proof.
  intros Hi Hpos Hb Hx.
  pose proof (Block_init_head_size_pos _ _ _ _ Hi Hpos) as Hhs.
  destruct (Block_build_output_shape _ _ _ _ p Hi) as [Hout Hch].
  unfold Block.built_for in Hb.
  apply andb_true_iff in Hb as [Hb H].
  apply andb_true_iff in Hb as [Hb H0].
  apply andb_true_iff in Hb as [Hb H1].
  unfold Block.call, Block.attention_path, Block.ffwd_path.
  destruct (LayerNormalization_call_shape _ x _ _ _ Hx Hb) as (n1 & -> & Hn1); cbn [bind].
  destruct (multi_head_self_attention_call_shape _ training keep_sa n1 _ _ _ Hn1 H0 Hhs)
    as (a & -> & Ha); cbn [bind].
  rewrite Hout in Ha.
  destruct (tadd_same_shape x a) as (x1 & -> & Hx1); [congruence|]; cbn [bind].
  rewrite Hx in Hx1.
  destruct (LayerNormalization_call_shape _ x1 _ _ _ Hx1 H1) as (n2 & -> & Hn2); cbn [bind].
  unfold FeedForward.call.
  destruct (Sequential_call_shape _ training keep_ff n2 _ _ _ Hn2 H)
    as (f & -> & Hf); cbn [bind].
  rewrite Hch in Hf.
  destruct (tadd_same_shape x1 f) as (x2 & -> & Hx2); [congruence|]; cbn [bind].
  eexists; split; [reflexivity|congruence].
Qed.

(** ** [Block.call] *)



(** ** Dropout inside a block *)

Lemma Dropout_call_zero (training : bool) (keep : list nat -> bool) (x : tensor) :
  Dropout_call 0 training keep x = x.
Proof.
  unfold Dropout_call. destruct (Req_dec_T 0 0) as [_|H]; [reflexivity|now elim H].
Qed.

Lemma attention_weights_no_dropout (mha : MultiHeadAttention.t)
    (training training' : bool) (keep keep' : list nat -> bool)
    (q k : tensor) (m : option tensor) :
  MultiHeadAttention.dropout mha = 0 ->
  MultiHeadAttention.attention_weights mha training keep q k m
  = MultiHeadAttention.attention_weights mha training' keep' q k m.
Proof.
  intros H0. unfold MultiHeadAttention.attention_weights. rewrite H0.
  destruct (MultiHeadAttention.project mha _ _ q) as [q'|e]; [|reflexivity].
  cbn [bind].
  destruct (MultiHeadAttention.project mha _ _ k) as [k'|e]; [|reflexivity].
  cbn [bind].
  destruct (MultiHeadAttention.attention_scores mha q' k') as [s|e]; [|reflexivity].
  cbn [bind].
  destruct (Softmax_call s m) as [w|e]; [|reflexivity].
  cbn [bind]. now rewrite !Dropout_call_zero.
Qed.

(** C10: [Block.build] makes the attention sublayer with the default dropout
    rate 0 whatever the block's own rate is; the block's rate reaches the
    feed-forward net only (its last layer); and the attention branch of
    [Block.call] gives the same result in and outside training, for every
    random draw. *)
Theorem Block_build_attention_dropout (self : Block.t) (p : Block.params) :
  MultiHeadAttention.dropout (Block.sa (Block.build self p)) = 0
  /\ FeedForward.dropout (Block.ffwd_config (Block.build self p)) = Block.dropout self
  /\ last (Block.ffwd (Block.build self p)) (FeedForward.DropoutL 0)
     = FeedForward.DropoutL (Block.dropout self)
  /\ (forall d : R,
        let self' := Block.mk (Block.n_embd self) (Block.n_head self)
                       (Block.head_size self) d in
        Block.sa (Block.build self' p) = Block.sa (Block.build self p)
        /\ Block.ln1 (Block.build self' p) = Block.ln1 (Block.build self p)
        /\ Block.ln2 (Block.build self' p) = Block.ln2 (Block.build self p))
  /\ (forall (training training' : bool) (keep keep' : list nat -> bool) (x : tensor),
        Block.attention_path (Block.build self p) training keep x
        = Block.attention_path (Block.build self p) training' keep' x).
Proof.
  split; [reflexivity|]. split; [reflexivity|]. split; [reflexivity|].
  split; [intros d; repeat split|].
  intros training training' keep keep' x.
  unfold Block.attention_path.
  destruct (LayerNormalization_call _ x) as [n|e]; [|reflexivity].
  cbn [bind].
  unfold multi_head_self_attention_call, MultiHeadAttention.call.
  now rewrite (attention_weights_no_dropout _ training training' keep keep').
Qed.


(** ** [FeedForward] *)

Lemma relu_nonneg (v : R) : 0 <= relu v.
Proof. unfold relu. apply Rmax_l. Qed.




(** ** [TransformerLayer] *)






Lemma broadcast_shape_batch (Bn Tn Cn : nat) :
  broadcast_shape [Bn; Tn; Cn] [Tn; Cn] = Some [Bn; Tn; Cn].
Proof.
  unfold broadcast_shape; simpl. now rewrite !Nat.eqb_refl.
Qed.

Lemma bindex_one (d i : nat) : (i < d)%nat -> (if (d =? 1)%nat then O else i) = i.
Proof.
  intros H. destruct (d =? 1)%nat eqn:E; [|reflexivity].
  apply Nat.eqb_eq in E. lia.
Qed.

Lemma broadcast_index_3 (Bn Tn Cn n i c : nat) :
  (n < Bn)%nat -> (i < Tn)%nat -> (c < Cn)%nat ->
  broadcast_index [Bn; Tn; Cn] [n; i; c] = [n; i; c]
  /\ broadcast_index [Tn; Cn] [n; i; c] = [i; c].
Proof.
  intros Hn Hi Hc. unfold broadcast_index; simpl.
  now rewrite !bindex_one.
Qed.

Lemma Block_init_n_embd (n_embd n_head : nat) (dropout : R) (b : Block.t) :
  Block.init n_embd n_head dropout = Ok b -> Block.n_embd b = n_embd.
Proof.
  unfold Block.init.
  destruct (n_head =? 0)%nat; [discriminate|].
  destruct (n_embd mod n_head =? 0)%nat; [|discriminate].
  now intros [= <-].
Qed.

Lemma make_blocks_made_by (self : TransformerLayer.t) (p : TransformerLayer.params)
    (ks : list nat) :
  forall bs, TransformerLayer.make_blocks self p ks = Ok bs ->
             Forall (made_by self) bs /\ length bs = length ks.
Proof.
  induction ks as [|k ks IH]; simpl; intros bs H.
  - injection H as <-. split; [constructor|reflexivity].
  - destruct (Block.init _ _ _) as [b|e] eqn:Hb; [|discriminate].
    cbn [bind] in H.
    destruct (TransformerLayer.make_blocks self p ks) as [bs'|e]; [|discriminate].
    cbn [bind] in H. injection H as <-.
    destruct (IH bs' eq_refl) as [HF Hl]. split.
    + constructor; [|exact HF]. exists b, (TransformerLayer.block_params p k).
      split; [exact Hb|reflexivity].
    + simpl. now rewrite Hl.
Qed.

Lemma blocks_call_shape (self : TransformerLayer.t) (training : bool)
    (keep_sa keep_ff : nat -> list nat -> bool) (Bn Tn : nat)
    (bs : list Block.layers) :
  (0 < TransformerLayer.n_embd self)%nat ->
  Forall (made_by self) bs ->
  forallb (Block.built_for (TransformerLayer.n_embd self)) bs = true ->
  forall (k : nat) (x : tensor),
    shape x = [Bn; Tn; TransformerLayer.n_embd self] ->
    exists y,
      TransformerLayer.blocks_call bs training keep_sa keep_ff k x = Ok y
      /\ shape y = [Bn; Tn; TransformerLayer.n_embd self].
Proof.
  intros Hpos.
  induction bs as [|bl bs IH]; intros HF Hb k x Hx; simpl.
  - exists x. split; [reflexivity|exact Hx].
  - inversion HF as [|? ? (b & pk & Hi & ->) HF']; subst.
    simpl in Hb. apply andb_true_iff in Hb as [Hb1 Hb].
    pose proof (Block_init_n_embd _ _ _ _ Hi) as Hn.
    rewrite <- Hn in Hb1, Hx, Hpos.
    destruct (Block_call_shape _ _ _ b pk training (keep_sa k) (keep_ff k) x Bn Tn
                Hi Hpos Hb1 Hx) as (y & -> & Hy).
    cbn [bind]. rewrite Hn in Hpos.
    apply IH; [exact HF'|exact Hb|]. rewrite Hy, Hx. now rewrite Hn.
Qed.

Lemma Embedding_init_Ok (input_dim output_dim : nat) (w : tensor) (l : Embedding) :
  Embedding_init input_dim output_dim w = Ok l ->
  l = mkEmbedding input_dim output_dim w
  /\ (0 < input_dim)%nat /\ (0 < output_dim)%nat.
Proof.
  unfold Embedding_init.
  destruct (input_dim =? 0)%nat eqn:E1; [discriminate|].
  destruct (output_dim =? 0)%nat eqn:E2; [discriminate|].
  cbn [orb]. intros [= <-].
  apply Nat.eqb_neq in E1, E2. repeat split; lia.
Qed.

Lemma TransformerLayer_build_inv (self : TransformerLayer.t)
    (p : TransformerLayer.params) (input_shape : list nat) (l : TransformerLayer.layers) :
  TransformerLayer.build self p input_shape = Ok l ->
  TransformerLayer.block_size l = nth 1 input_shape O
  /\ Forall (made_by self) (TransformerLayer.blocks l)
  /\ length (TransformerLayer.blocks l) = TransformerLayer.n_block self
  /\ TransformerLayer.token_embedding_table l
     = mkEmbedding (TransformerLayer.vocab_size self) (TransformerLayer.n_embd self)
         (TransformerLayer.token_embeddings p)
  /\ TransformerLayer.position_embedding_table l
     = mkEmbedding (TransformerLayer.block_size l) (TransformerLayer.n_embd self)
         (TransformerLayer.position_embeddings p)
  /\ TransformerLayer.lm_head l
     = mkDense (TransformerLayer.vocab_size self) true
         (TransformerLayer.lm_head_kernel p) (TransformerLayer.lm_head_bias p).
Proof.
  unfold TransformerLayer.build.
  destruct input_shape as [|b0 [|bsz rest]]; try discriminate.
  intros H. apply bind_Ok in H as (tok & Htok & H).
  apply bind_Ok in H as (pos & Hpos & H).
  apply bind_Ok in H as (bs & Hbs & H). injection H as <-. simpl.
  apply Embedding_init_Ok in Htok as (-> & _), Hpos as (-> & _).
  destruct (make_blocks_made_by _ _ _ _ Hbs) as [HF Hl].
  rewrite length_seq in Hl. repeat split; assumption.
Qed.

(** A layer that could be built has a positive vocabulary, width and
    sequence length. *)
Lemma TransformerLayer_build_pos (self : TransformerLayer.t)
    (p : TransformerLayer.params) (input_shape : list nat) (l : TransformerLayer.layers) :
  TransformerLayer.build self p input_shape = Ok l ->
  (0 < TransformerLayer.vocab_size self)%nat
  /\ (0 < TransformerLayer.n_embd self)%nat
  /\ (0 < TransformerLayer.block_size l)%nat.
Proof.
  unfold TransformerLayer.build.
  destruct input_shape as [|b0 [|bsz rest]]; try discriminate.
  intros H. apply bind_Ok in H as (tok & Htok & H).
  apply bind_Ok in H as (pos & Hpos & H).
  apply bind_Ok in H as (bs & Hbs & H). injection H as <-. simpl.
  apply Embedding_init_Ok in Htok as (_ & Hv & He), Hpos as (_ & Hb & _).
  repeat split; assumption.
Qed.

Section TransformerLayerCall.

Variable self : TransformerLayer.t.
Variable p : TransformerLayer.params.
Variable input_shape : list nat.
Variable l : TransformerLayer.layers.
Variable training : bool.
Variables keep_sa keep_ff : nat -> list nat -> bool.
Variable idx : itensor.
Variables Bn Tn : nat.

Hypothesis Hbuild : TransformerLayer.build self p input_shape = Ok l.
Hypothesis Hbuilt : TransformerLayer.built_for self l = true.
Hypothesis Hidx : ishape idx = [Bn; Tn].
Hypothesis Htok : forall n i, (n < Bn)%nat -> (i < Tn)%nat ->
                              (ielt idx [n; i] < TransformerLayer.vocab_size self)%nat.



(** Once the embeddings are summed, the rest of the call cannot fail. *)
Lemma TransformerLayer_call_after_embed (x : tensor) (Bn' Tn' : nat) :
  TransformerLayer.embed l idx = Ok x ->
  shape x = [Bn'; Tn'; TransformerLayer.n_embd self] ->
  exists xb xf logits,
    TransformerLayer.blocks_call (TransformerLayer.blocks l) training
      keep_sa keep_ff 0 x = Ok xb
    /\ LayerNormalization_call (TransformerLayer.ln_f l) xb = Ok xf
    /\ TransformerLayer.call l training keep_sa keep_ff idx = Ok logits
    /\ shape logits = [Bn'; Tn'; TransformerLayer.vocab_size self]
    /\ forall n i v,
         elt logits [n; i; v]
         = rsum (TransformerLayer.n_embd self)
             (fun c => elt xf [n; i; c] * elt (TransformerLayer.lm_head_kernel p) [c; v])
           + elt (TransformerLayer.lm_head_bias p) [v].
Proof.
  intros Hx Hsx.
  destruct (TransformerLayer_build_inv _ _ _ _ Hbuild)
    as (_ & HF & _ & _ & _ & Hlm).
  pose proof Hbuilt as Hb. unfold TransformerLayer.built_for in Hb.
  apply andb_true_iff in Hb as [Hb Hbias].
  apply andb_true_iff in Hb as [Hb Hker].
  apply andb_true_iff in Hb as [Hb Hln].
  apply andb_true_iff in Hb as [_ Hblocks].
  destruct (TransformerLayer_build_pos _ _ _ _ Hbuild) as (_ & Hpos & _).
  destruct (blocks_call_shape self training keep_sa keep_ff Bn' Tn' _ Hpos HF Hblocks
              O x Hsx) as (xb & Hxb & Hsxb).
  destruct (LayerNormalization_call_shape _ xb _ _ _ Hsxb Hln) as (xf & Hxf & Hsxf).
  exists xb, xf.
  unfold TransformerLayer.call. rewrite Hx; cbn [bind].
  rewrite Hxb; cbn [bind]. rewrite Hxf; cbn [bind].
  unfold Dense_call. rewrite Hsxf. cbn [last].
  rewrite Hlm in Hker, Hbias |- *. cbn [kernel bias units use_bias] in *.
  rewrite Hker, Hbias. cbn [negb orb andb bind].
  eexists. repeat split; try reflexivity; assumption.
Qed.


End TransformerLayerCall.




(** ** [multi_head_self_attention_layer] *)

Lemma uniform_mix (a b v0 v1 : R) :
  a = 0 -> b = 0 ->
  0 + (0 + (0 + exp a / (0 + exp a + exp b) * v0
              + exp b / (0 + exp a + exp b) * v1) * 1) + 0
  = (v0 + v1) / 2.
Proof. intros -> ->. rewrite exp_0. field. Qed.

(** C1: the attention layer of a block is called without a mask.  With
    [one_head], the inputs [two_steps 0] and [two_steps 2] differ only at
    position 1, and the output at position 0 is 0 for the first and 1 for the
    second: position 0 attends to position 1 with weight 1/2. *)
Theorem multi_head_attention_leaks_future_input :
  exists out out',
    multi_head_self_attention_call one_head false (fun _ => true) (two_steps 0) = Ok out
    /\ multi_head_self_attention_call one_head false (fun _ => true) (two_steps 2) = Ok out'
    /\ (forall n t c, t <> 1%nat ->
          elt (two_steps 0) [n; t; c] = elt (two_steps 2) [n; t; c])
    /\ elt out [0; 0; 0]%nat = 0
    /\ elt out' [0; 0; 0]%nat = 1.
Proof.
  unfold multi_head_self_attention_call, MultiHeadAttention.call,
    MultiHeadAttention.attention_weights, MultiHeadAttention.project; simpl.
  unfold MultiHeadAttention.attention_scores; simpl.
  unfold Dropout_call; simpl.
  destruct (Req_dec_T 0 0) as [_|Hne]; [|now elim Hne].
  unfold MultiHeadAttention.combine; simpl.
  do 2 eexists. split; [reflexivity|]. split; [reflexivity|]. simpl.
  split; [|split].
  - intros n t c Ht.
    destruct n as [|n]; [|reflexivity].
    destruct t as [|[|t]]; [reflexivity| now elim Ht | reflexivity].
  - rewrite uniform_mix by lra. lra.
  - rewrite uniform_mix by lra. lra.
Qed.

(** ** The masked softmax of [Head] in general *)

(** What the mask adds to the score of key position [j] in row [i]. *)
Lemma mask_penalty (S i j : nat) :
  elt (tmap (fun v => (1 - v) * large_compatible_negative) (tril_ones S)) [i; j]
  = if (j <=? i)%nat then 0 else large_compatible_negative.
Proof.
  simpl. destruct (j <=? i)%nat; lra.
Qed.

Lemma Head_weights_elt (self : Head.t) (w_key w_query w_value x : tensor)
    (keep : list nat -> bool) (Bn Cn : nat) :
  shape x = [Bn; Head.seq_len self; Cn] ->
  shape w_key = [Cn; Head.head_size self] ->
  shape w_query = [Cn; Head.head_size self] ->
  exists a wei,
    Head.affinities (Head.build self w_key w_query w_value) x = Ok a
    /\ Head.weights (Head.build self w_key w_query w_value) false keep x = Ok wei
    /\ forall n i j,
         (n < Bn)%nat -> (i < Head.seq_len self)%nat -> (j < Head.seq_len self)%nat ->
         elt wei [n; i; j]
         = exp (elt a [n; i; j]
                + if (j <=? i)%nat then 0 else large_compatible_negative)
           / rsum (Head.seq_len self)
               (fun k => exp (elt a [n; i; k]
                              + if (k <=? i)%nat then 0 else large_compatible_negative)).
Proof.
  intros Hx Hk Hq.
  destruct (Head_affinities_ok self w_key w_query w_value x _ _ _ Hx Hk Hq)
    as (a & Ha & Hs & _).
  exists a. unfold Head.weights. rewrite Ha; cbn [bind].
  unfold Softmax_call, tadd. cbn [shape tmap Head.mask Head.build tril_ones].
  rewrite Hs, broadcast_shape_batch. cbn [bind].
  unfold Dropout_call.
  destruct (Req_dec_T (Head.dropout _) 0) as [Hr|Hr]; eexists; (split; [reflexivity|]);
    (split; [reflexivity|]); intros n i j Hn Hi Hj;
    cbn [softmax elt shape last removelast app];
    destruct (broadcast_index_3 Bn _ _ n i j Hn Hi Hj) as [-> ->];
    rewrite mask_penalty; f_equal; apply rsum_ext; intros k Hk';
    destruct (broadcast_index_3 Bn _ _ n i k Hn Hi Hk') as [-> ->];
    now rewrite mask_penalty.
Qed.

(** In exact arithmetic the weight of a future position [j > i] is at most
    [exp (a_ij - a_ii - 10^9)], where [a] are the scaled scores: it is
    negligible unless a future score exceeds the diagonal score by about
    [10^9]. *)
Lemma Head_weights_rows (self : Head.t) (w_key w_query w_value x : tensor)
    (keep : list nat -> bool) (Bn Cn : nat) :
  shape x = [Bn; Head.seq_len self; Cn] ->
  shape w_key = [Cn; Head.head_size self] ->
  shape w_query = [Cn; Head.head_size self] ->
  exists a wei,
    Head.affinities (Head.build self w_key w_query w_value) x = Ok a
    /\ Head.weights (Head.build self w_key w_query w_value) false keep x = Ok wei
    /\ forall n i j,
         (n < Bn)%nat -> (i < j)%nat -> (j < Head.seq_len self)%nat ->
         elt wei [n; i; j]
         <= exp (elt a [n; i; j] - elt a [n; i; i] + large_compatible_negative).
Proof.
  intros Hx Hk Hq.
  destruct (Head_weights_elt self w_key w_query w_value x keep Bn Cn Hx Hk Hq)
    as (a & wei & Ha & Hw & He).
  exists a, wei. split; [exact Ha|]. split; [exact Hw|].
  intros n i j Hn Hij Hj.
  assert (Hi : (i < Head.seq_len self)%nat) by lia.
  set (f := fun k => elt a [n; i; k]
                     + if (k <=? i)%nat then 0 else large_compatible_negative) in *.
  assert (HZ : 0 < rsum (Head.seq_len self) (fun k => exp (f k))).
  { apply rsum_exp_pos. lia. }
  rewrite (He n i j Hn Hi Hj). fold (f j).
  assert (Hfj : f j = elt a [n; i; j] + large_compatible_negative).
  { unfold f. destruct (j <=? i)%nat eqn:E; [|reflexivity].
    apply Nat.leb_le in E. lia. }
  assert (Hfi : f i = elt a [n; i; i]).
  { unfold f. rewrite Nat.leb_refl. lra. }
  assert (Hd : exp (f i) <= rsum (Head.seq_len self) (fun k => exp (f k))).
  { apply (rsum_term_le _ (fun k => exp (f k)) i); [|exact Hi].
    intros; left; apply exp_pos. }
  pose proof (exp_pos (f j)) as Hpj. pose proof (exp_pos (f i)) as Hpi.
  replace (elt a [n; i; j] - elt a [n; i; i] + large_compatible_negative)
    with (f j - f i) by lra.
  unfold Rminus. rewrite exp_plus, exp_Ropp.
  unfold Rdiv. apply Rmult_le_compat_l; [lra|].
  apply Rinv_le_contravar; assumption.
Qed.

(** A layer built for length 1 does not reject a longer input: its single
    position embedding is broadcast over all positions. *)
Lemma TransformerLayer_length_one_broadcasts :
  exists l,
    TransformerLayer.build tiny_model (tiny_params 1) [1; 1]%nat = Ok l
    /\ TransformerLayer.block_size l = 1%nat
    /\ exists logits,
         TransformerLayer.call l false (fun _ _ => true) (fun _ _ => true)
           (zero_tokens 1 2) = Ok logits
         /\ shape logits = [1; 2; 2]%nat.
Proof.
  eexists. split; [reflexivity|]. split; [reflexivity|].
  edestruct (TransformerLayer_call_after_embed tiny_model (tiny_params 1)
               [1; 1]%nat _ false (fun _ _ => true) (fun _ _ => true)
               (zero_tokens 1 2) eq_refl eq_refl _ 1 2 eq_refl eq_refl)
    as (xb & xf & logits & _ & _ & Hc & Hs & _).
  exists logits. split; assumption.
Qed.

(** * Further properties of the layers *)

(** ** Inverting successful calls *)

Lemma Dense_call_Ok (d : Dense) (x y : tensor) :
  Dense_call d x = Ok y ->
  shape x <> [] /\ shape y = removelast (shape x) ++ [units d].
Proof.
  unfold Dense_call. destruct (shape x) as [|a s] eqn:Hs; [discriminate|].
  destruct (_ && _); [|discriminate]. intros [= <-]. split; [discriminate|reflexivity].
Qed.

Lemma removelast_rank3 (s : list nat) (h b t c : nat) :
  s <> [] -> removelast s ++ [h] = [b; t; c] ->
  exists c', s = [b; t; c'] /\ c = h.
Proof.
  intros Hne H.
  change [b; t; c] with ([b; t] ++ [c]) in H.
  apply app_inj_tail in H as [Hr ->].
  exists (last s O). split; [|reflexivity].
  rewrite (app_removelast_last O Hne) at 1. now rewrite Hr.
Qed.

Lemma permute_dimensions_021_Ok (x y : tensor) :
  permute_dimensions_021 x = Ok y ->
  exists b t c, shape x = [b; t; c] /\ shape y = [b; c; t].
Proof.
  unfold permute_dimensions_021.
  destruct (shape x) as [|b [|t [|c [|d s]]]]; try discriminate.
  intros [= <-]. now exists b, t, c.
Qed.

Lemma matmul_Ok (a b c : tensor) :
  matmul a b = Ok c ->
  exists ba m k n, shape a = [ba; m; k] /\ shape b = [ba; k; n] /\ shape c = [ba; m; n].
Proof.
  unfold matmul.
  destruct (shape a) as [|ba [|m [|k [|d s]]]]; try discriminate.
  destruct (shape b) as [|bb [|k' [|n [|d s]]]]; try discriminate.
  destruct (_ && _) eqn:E; [|discriminate].
  apply andb_true_iff in E as [E1 E2]. apply Nat.eqb_eq in E1, E2. subst.
  intros [= <-]. now exists bb, m, k', n.
Qed.

(** The shapes a [(S, S)] mask can be added to a [(B, T, T)] tensor with. *)
Lemma broadcast_mask_shape (b t S : nat) (s : list nat) :
  broadcast_shape [b; t; t] [S; S] = Some s ->
  (t = S /\ s = [b; t; t])
  \/ (t <> S /\ t = 1%nat /\ s = [b; S; S])
  \/ (t <> S /\ S = 1%nat /\ s = [b; t; t]).
Proof.
  unfold broadcast_shape; simpl.
  destruct (t =? S)%nat eqn:E1.
  - apply Nat.eqb_eq in E1. subst. simpl. intros [= <-]. now left.
  - apply Nat.eqb_neq in E1.
    destruct (t =? 1)%nat eqn:E2.
    + apply Nat.eqb_eq in E2. simpl. intros [= <-]. right; left. now subst.
    + destruct (S =? 1)%nat eqn:E3; [|discriminate].
      apply Nat.eqb_eq in E3. simpl. intros [= <-]. right; right. now subst.
Qed.

(** ** [Head.call]: which inputs it accepts *)

(** [Head.call] returns a result only for an input of rank 3 whose sequence
    length is the configured [seq_len]; the result then has the shape
    [(B, seq_len, head_size)].  Any other sequence length fails: in the
    addition of the mask, in the second [matmul], or in the [assert]. *)
Theorem Head_call_only_for_seq_len (self : Head.t) (w_key w_query w_value x out : tensor)
    (training : bool) (keep : list nat -> bool) :
  Head.call self (Head.build self w_key w_query w_value) training keep x = Ok out ->
  exists Bn Cn,
    shape x = [Bn; Head.seq_len self; Cn]
    /\ shape out = [Bn; Head.seq_len self; Head.head_size self].
Proof.
  unfold Head.call, Head.weights, Head.affinities. intros H.
  apply bind_Ok in H as (wei & Hwei & H).
  apply bind_Ok in Hwei as (a & Ha & Hwei).
  apply bind_Ok in Ha as (k & Hk & Ha).
  apply bind_Ok in Ha as (q & Hq & Ha).
  apply bind_Ok in Ha as (kt & Hkt & Ha).
  apply bind_Ok in Ha as (w0 & Hw0 & Ha).
  injection Ha as <-.
  apply bind_Ok in Hwei as (w1 & Hw1 & Hwei).
  injection Hwei as <-.
  apply bind_Ok in H as (v & Hv & H).
  apply bind_Ok in H as (o & Ho & H).
  apply Dense_call_Ok in Hk as [Hne Hsk], Hq as [_ Hsq], Hv as [_ Hsv].
  cbn [Head.build Head.key Head.query Head.value units] in Hsk, Hsq, Hsv.
  apply permute_dimensions_021_Ok in Hkt as (b & t & c & Hk3 & Hskt).
  rewrite Hsk in Hk3.
  destruct (removelast_rank3 _ _ _ _ _ Hne Hk3) as (Cn & Hx & Hc). subst c.
  rewrite Hx in Hsq, Hsv. cbn [removelast app] in Hsq, Hsv.
  apply matmul_Ok in Hw0 as (ba & m & kk & n & Hq3 & Hkt3 & Hsw0).
  rewrite Hsq in Hq3. rewrite Hskt in Hkt3.
  inversion Hq3; subst ba m kk. inversion Hkt3; subst n. clear Hq3 Hkt3.
  unfold Softmax_call in Hw1.
  apply bind_Ok in Hw1 as (w2 & Hw2 & Hw1). injection Hw1 as <-.
  unfold tadd in Hw2. cbn [shape tmap Head.mask Head.build tril_ones] in Hw2.
  rewrite Hsw0 in Hw2.
  destruct (broadcast_shape [b; t; t] _) as [s|] eqn:Hbs; [|discriminate].
  injection Hw2 as <-.
  apply matmul_Ok in Ho as (ba & m & kk & n & Hw3 & Hv3 & Hso).
  rewrite Dropout_call_shape in Hw3. cbn [softmax shape] in Hw3.
  rewrite Hsv in Hv3. inversion Hv3; subst ba kk n. clear Hv3.
  rewrite Hso in H. cbn [rev app] in H.
  destruct ((m =? Head.seq_len self)%nat && _) eqn:E; [|discriminate].
  injection H as <-.
  apply andb_true_iff in E as [E _]. apply Nat.eqb_eq in E. subst m.
  exists b, Cn.
  apply broadcast_mask_shape in Hbs
    as [(-> & ->)|[(Hne' & -> & ->)|(Hne' & HS & ->)]].
  - split; [exact Hx|]. rewrite Hso. reflexivity.
  - inversion Hw3. congruence.
  - inversion Hw3. congruence.
Qed.

(** The output of [Head.call] in terms of the attention weights and the value
    projection. *)
Lemma Head_call_elt (self : Head.t) (w_key w_query w_value x : tensor)
    (training : bool) (keep : list nat -> bool) (Bn Cn : nat) :
  shape x = [Bn; Head.seq_len self; Cn] ->
  shape w_key = [Cn; Head.head_size self] ->
  shape w_query = [Cn; Head.head_size self] ->
  shape w_value = [Cn; Head.head_size self] ->
  exists wei out,
    Head.weights (Head.build self w_key w_query w_value) training keep x = Ok wei
    /\ Head.call self (Head.build self w_key w_query w_value) training keep x = Ok out
    /\ forall n i h,
         elt out [n; i; h]
         = rsum (Head.seq_len self) (fun j =>
             elt wei [n; i; j] * rsum Cn (fun c => elt x [n; j; c] * elt w_value [c; h])).
Proof.
  intros Hx Hk Hq Hv.
  destruct (Head_weights_ok self w_key w_query w_value x training keep _ _ Hx Hk Hq)
    as (wei & Hw & Hs).
  exists wei. unfold Head.call. rewrite Hw; cbn [bind].
  unfold Dense_call. cbn [Head.build Head.value units use_bias kernel].
  rewrite Hx, Hv. cbn [last removelast app negb orb andb].
  rewrite shape_eqb_refl. cbn [andb bind].
  unfold matmul. cbn [shape]. rewrite Hs, !Nat.eqb_refl. cbn [andb bind rev app shape].
  rewrite ?Nat.eqb_refl. cbn [andb].
  eexists. split; [reflexivity|]. split; [reflexivity|].
  intros n i h. cbn [elt]. apply rsum_ext. intros j _.
  cbn [removelast app last]. now rewrite Rplus_0_r.
Qed.

(** Outside training the output of [Head.call] for one sequence depends on
    that sequence only: not on the other sequences of the batch, nor on the
    size of the batch or the place of the sequence in it. *)
Theorem Head_call_batch_independent (self : Head.t)
    (w_key w_query w_value x x' : tensor) (keep keep' : list nat -> bool)
    (Bn Bn' Cn n n' : nat) :
  shape x = [Bn; Head.seq_len self; Cn] ->
  shape x' = [Bn'; Head.seq_len self; Cn] ->
  shape w_key = [Cn; Head.head_size self] ->
  shape w_query = [Cn; Head.head_size self] ->
  shape w_value = [Cn; Head.head_size self] ->
  (n < Bn)%nat -> (n' < Bn')%nat ->
  (forall i c, elt x [n; i; c] = elt x' [n'; i; c]) ->
  exists out out',
    Head.call self (Head.build self w_key w_query w_value) false keep x = Ok out
    /\ Head.call self (Head.build self w_key w_query w_value) false keep' x' = Ok out'
    /\ forall i h, (i < Head.seq_len self)%nat ->
         elt out [n; i; h] = elt out' [n'; i; h].
Proof.
  intros Hx Hx' Hk Hq Hv Hn Hn' Hxx.
  destruct (Head_call_elt self w_key w_query w_value x false keep Bn Cn Hx Hk Hq Hv)
    as (wei & out & Hw & Hc & He).
  destruct (Head_call_elt self w_key w_query w_value x' false keep' Bn' Cn Hx' Hk Hq Hv)
    as (wei' & out' & Hw' & Hc' & He').
  exists out, out'. split; [exact Hc|]. split; [exact Hc'|].
  destruct (Head_weights_elt self w_key w_query w_value x keep Bn Cn Hx Hk Hq)
    as (a & w1 & Ha & Hw1 & Hf).
  rewrite Hw in Hw1. injection Hw1 as <-.
  destruct (Head_weights_elt self w_key w_query w_value x' keep' Bn' Cn Hx' Hk Hq)
    as (a' & w1' & Ha' & Hw1' & Hf').
  rewrite Hw' in Hw1'. injection Hw1' as <-.
  destruct (Head_affinities_ok self w_key w_query w_value x _ _ _ Hx Hk Hq)
    as (a0 & Ha0 & _ & Hea).
  rewrite Ha in Ha0. injection Ha0 as <-.
  destruct (Head_affinities_ok self w_key w_query w_value x' _ _ _ Hx' Hk Hq)
    as (a0' & Ha0' & _ & Hea').
  rewrite Ha' in Ha0'. injection Ha0' as <-.
  assert (Haa : forall i j, elt a [n; i; j] = elt a' [n'; i; j]).
  { intros i j. rewrite Hea, Hea'. f_equal. apply rsum_ext. intros h _.
    f_equal; apply rsum_ext; intros c _; now rewrite Hxx. }
  intros i h Hi. rewrite He, He'. apply rsum_ext. intros j Hj.
  rewrite (Hf n i j Hn Hi Hj), (Hf' n' i j Hn' Hi Hj).
  f_equal.
  - f_equal; [now rewrite Haa|].
    apply rsum_ext. intros k _. now rewrite Haa.
  - apply rsum_ext. intros c _. now rewrite Hxx.
Qed.

(** ** [FeedForward]: one time step at a time *)

Lemma LayerNormalization_call_row (l : LayerNormalization) (x x' y y' : tensor)
    (Bn Tn Bn' Tn' Cn n i n' i' : nat) :
  shape x = [Bn; Tn; Cn] -> shape x' = [Bn'; Tn'; Cn] ->
  LayerNormalization_call l x = Ok y ->
  LayerNormalization_call l x' = Ok y' ->
  (forall c, elt x [n; i; c] = elt x' [n'; i'; c]) ->
  shape y = [Bn; Tn; Cn] /\ shape y' = [Bn'; Tn'; Cn]
  /\ forall c, elt y [n; i; c] = elt y' [n'; i'; c].
Proof.
  intros Hx Hx' Hy Hy' H. unfold LayerNormalization_call in Hy, Hy'.
  rewrite Hx in Hy. rewrite Hx' in Hy'. cbn [last] in Hy, Hy'.
  destruct (_ && _); [|discriminate].
  injection Hy as <-. injection Hy' as <-.
  split; [reflexivity|]. split; [reflexivity|].
  intros c. cbn [elt removelast app last].
  assert (Hm : rsum Cn (fun k => elt x [n; i; k]) = rsum Cn (fun k => elt x' [n'; i'; k])).
  { apply rsum_ext. intros k _. apply H. }
  rewrite Hm, (H c). f_equal. f_equal. f_equal. f_equal. f_equal. f_equal.
  apply rsum_ext. intros k _. now rewrite (H k).
Qed.

Lemma Conv1D_call_row (l : Conv1D) (x x' y y' : tensor)
    (Bn Tn Bn' Tn' Cn n i n' i' : nat) :
  shape x = [Bn; Tn; Cn] -> shape x' = [Bn'; Tn'; Cn] ->
  Conv1D_call l x = Ok y ->
  Conv1D_call l x' = Ok y' ->
  (forall c, elt x [n; i; c] = elt x' [n'; i'; c]) ->
  shape y = [Bn; Tn; filters l] /\ shape y' = [Bn'; Tn'; filters l]
  /\ forall c, elt y [n; i; c] = elt y' [n'; i'; c].
Proof.
  intros Hx Hx' Hy Hy' H. unfold Conv1D_call in Hy, Hy'.
  rewrite Hx in Hy. rewrite Hx' in Hy'. cbn [last] in Hy, Hy'.
  destruct (_ && _); [|discriminate].
  injection Hy as <-. injection Hy' as <-.
  split; [reflexivity|]. split; [reflexivity|].
  intros c. cbn [elt removelast app last].
  assert (Hm : rsum Cn (fun k => elt x [n; i; k] * elt (conv_kernel l) [k; c])
               = rsum Cn (fun k => elt x' [n'; i'; k] * elt (conv_kernel l) [k; c])).
  { apply rsum_ext. intros k _. now rewrite H. }
  now rewrite Hm.
Qed.

Lemma Dropout_call_eval (rate : R) (keep : list nat -> bool) (x : tensor) :
  Dropout_call rate false keep x = x.
Proof.
  unfold Dropout_call. now destruct (Req_dec_T rate 0).
Qed.

(** Outside training a list of such layers maps equal rows to equal rows. *)
Lemma Sequential_call_row (net : list FeedForward.layer) :
  forall (x x' y y' : tensor) (keep keep' : list nat -> bool)
         (Bn Tn Bn' Tn' Cn n i n' i' : nat),
    shape x = [Bn; Tn; Cn] -> shape x' = [Bn'; Tn'; Cn] ->
    FeedForward.Sequential_call false keep net x = Ok y ->
    FeedForward.Sequential_call false keep' net x' = Ok y' ->
    (forall c, elt x [n; i; c] = elt x' [n'; i'; c]) ->
    forall c, elt y [n; i; c] = elt y' [n'; i'; c].
Proof.
  induction net as [|l net IH];
    intros x x' y y' keep keep' Bn Tn Bn' Tn' Cn n i n' i' Hx Hx' Hy Hy' H.
  - simpl in Hy, Hy'. injection Hy as <-. injection Hy' as <-. exact H.
  - simpl in Hy, Hy'.
    apply bind_Ok in Hy as (z & Hz & Hy). apply bind_Ok in Hy' as (z' & Hz' & Hy').
    destruct l as [ln|cv|rate]; simpl in Hz, Hz'.
    + destruct (LayerNormalization_call_row ln x x' z z' _ _ _ _ _ n i n' i'
                  Hx Hx' Hz Hz' H) as (Hs & Hs' & Hr).
      exact (IH z z' y y' keep keep' _ _ _ _ _ n i n' i' Hs Hs' Hy Hy' Hr).
    + destruct (Conv1D_call_row cv x x' z z' _ _ _ _ _ n i n' i'
                  Hx Hx' Hz Hz' H) as (Hs & Hs' & Hr).
      exact (IH z z' y y' keep keep' _ _ _ _ _ n i n' i' Hs Hs' Hy Hy' Hr).
    + rewrite Dropout_call_eval in Hz, Hz'.
      injection Hz as <-. injection Hz' as <-.
      exact (IH x x' y y' keep keep' _ _ _ _ _ n i n' i' Hx Hx' Hy Hy' H).
Qed.

(** Outside training [FeedForward] treats every time step on its own and in
    the same way: two time steps with the same channels, in the same or in
    different inputs, sequences and positions, give the same output
    channels. *)
Theorem FeedForward_call_positionwise (self : FeedForward.t) (p : FeedForward.params)
    (x x' : tensor) (keep keep' : list nat -> bool)
    (Bn Tn Bn' Tn' Cn n i n' i' : nat) :
  shape x = [Bn; Tn; Cn] -> shape x' = [Bn'; Tn'; Cn] ->
  FeedForward.Sequential_built_for Cn (FeedForward.build self p) = true ->
  (forall c, elt x [n; i; c] = elt x' [n'; i'; c]) ->
  exists y y',
    FeedForward.call (FeedForward.build self p) false keep x = Ok y
    /\ FeedForward.call (FeedForward.build self p) false keep' x' = Ok y'
    /\ forall c, elt y [n; i; c] = elt y' [n'; i'; c].
Proof.
  intros Hx Hx' Hb H. unfold FeedForward.call.
  destruct (Sequential_call_shape _ false keep x _ _ _ Hx Hb) as (y & Hy & _).
  destruct (Sequential_call_shape _ false keep' x' _ _ _ Hx' Hb) as (y' & Hy' & _).
  exists y, y'. split; [exact Hy|]. split; [exact Hy'|].
  exact (Sequential_call_row _ x x' y y' keep keep' _ _ _ _ _ n i n' i' Hx Hx' Hy Hy' H).
Qed.


(** ** [multi_head_self_attention_layer]: the shape of the output *)


(** ** [TransformerLayer.build] *)

Lemma make_blocks_Ok (self : TransformerLayer.t) (p : TransformerLayer.params)
    (b : Block.t) (ks : list nat) :
  Block.init (TransformerLayer.n_embd self) (TransformerLayer.n_head self)
    (TransformerLayer.dropout self) = Ok b ->
  TransformerLayer.make_blocks self p ks
  = Ok (map (fun k => Block.build b (TransformerLayer.block_params p k)) ks).
Proof.
  intros Hb. induction ks as [|k ks IH]; simpl; [reflexivity|].
  rewrite Hb, IH. reflexivity.
Qed.

Lemma make_blocks_Err (self : TransformerLayer.t) (p : TransformerLayer.params)
    (e : error) (k : nat) (ks : list nat) :
  Block.init (TransformerLayer.n_embd self) (TransformerLayer.n_head self)
    (TransformerLayer.dropout self) = Err e ->
  TransformerLayer.make_blocks self p (k :: ks) = Err e.
Proof.
  intros Hb. simpl. now rewrite Hb.
Qed.

(** [build] reads the sequence length from the second entry of the input
    shape and fails with [IndexError] on a shorter shape.  The two embedding
    tables come next: a vocabulary, a width or a sequence length of 0 is a
    [ValueError].  The blocks are constructed after them, so a head count
    that does not divide the embedding width is reported by [build] (not by
    the constructor), and only when at least one block is asked for: with
    [n_block = 0] every head count is accepted. *)
Theorem TransformerLayer_build_result (self : TransformerLayer.t)
    (p : TransformerLayer.params) (b0 bsz : nat) (rest : list nat) :
  TransformerLayer.build self p [] = Err IndexError
  /\ TransformerLayer.build self p [b0] = Err IndexError
  /\ (TransformerLayer.vocab_size self = 0%nat \/ TransformerLayer.n_embd self = 0%nat
      \/ bsz = 0%nat ->
      TransformerLayer.build self p (b0 :: bsz :: rest) = Err ValueError)
  /\ ((0 < TransformerLayer.vocab_size self)%nat ->
      (0 < TransformerLayer.n_embd self)%nat -> (0 < bsz)%nat ->
      (TransformerLayer.n_block self = 0%nat ->
       exists l, TransformerLayer.build self p (b0 :: bsz :: rest) = Ok l
                 /\ TransformerLayer.blocks l = []
                 /\ TransformerLayer.block_size l = bsz)
      /\ ((0 < TransformerLayer.n_block self)%nat ->
          TransformerLayer.n_head self = 0%nat ->
          TransformerLayer.build self p (b0 :: bsz :: rest) = Err ZeroDivisionError)
      /\ ((0 < TransformerLayer.n_block self)%nat ->
          TransformerLayer.n_head self <> 0%nat ->
          (TransformerLayer.n_embd self mod TransformerLayer.n_head self)%nat <> 0%nat ->
          TransformerLayer.build self p (b0 :: bsz :: rest) = Err AssertionError)
      /\ (TransformerLayer.n_head self <> 0%nat ->
          (TransformerLayer.n_embd self mod TransformerLayer.n_head self)%nat = 0%nat ->
          exists l, TransformerLayer.build self p (b0 :: bsz :: rest) = Ok l
                    /\ length (TransformerLayer.blocks l) = TransformerLayer.n_block self
                    /\ TransformerLayer.block_size l = bsz)).
Proof.
  split; [reflexivity|]. split; [reflexivity|].
  unfold TransformerLayer.build, Embedding_init. split.
  - intros [Hv|[He|Hb]].
    + rewrite Hv. reflexivity.
    + rewrite He, Nat.eqb_refl, orb_true_r. reflexivity.
    + rewrite Hb. destruct (_ || _); reflexivity.
  - intros Hv He Hb.
    assert (Ev : (TransformerLayer.vocab_size self =? 0)%nat = false)
      by (apply Nat.eqb_neq; lia).
    assert (Ee : (TransformerLayer.n_embd self =? 0)%nat = false)
      by (apply Nat.eqb_neq; lia).
    assert (Eb : (bsz =? 0)%nat = false) by (apply Nat.eqb_neq; lia).
    rewrite Ev, Ee, Eb. cbn [orb bind].
    split; [|split; [|split]].
    + intros ->. simpl. eexists. repeat split.
    + intros Hn Hh. destruct (TransformerLayer.n_block self) as [|m]; [lia|].
      simpl seq. rewrite (make_blocks_Err _ _ ZeroDivisionError); [reflexivity|].
      unfold Block.init. now rewrite Hh.
    + intros Hn Hh Hm. destruct (TransformerLayer.n_block self) as [|m]; [lia|].
      simpl seq. rewrite (make_blocks_Err _ _ AssertionError); [reflexivity|].
      unfold Block.init. apply Nat.eqb_neq in Hh, Hm. now rewrite Hh, Hm.
    + intros Hh Hm.
      erewrite make_blocks_Ok.
      * cbn [bind]. eexists. split; [reflexivity|]. cbn.
        split; [|reflexivity]. now rewrite length_map, length_seq.
      * unfold Block.init. apply Nat.eqb_neq in Hh. rewrite Hh, Hm. reflexivity.
Qed.

(** ** [TransformerLayer.call]: lengths of 1 *)



Section TransformerLayerLengthOne.

Variable self : TransformerLayer.t.
Variable p : TransformerLayer.params.
Variable input_shape : list nat.
Variable l : TransformerLayer.layers.
Variable training : bool.
Variables keep_sa keep_ff : nat -> list nat -> bool.
Variable idx : itensor.
Variables Bn Tn : nat.

Hypothesis Hbuild : TransformerLayer.build self p input_shape = Ok l.
Hypothesis Hbuilt : TransformerLayer.built_for self l = true.
Hypothesis Hidx : ishape idx = [Bn; Tn].
Hypothesis Htok : forall n i, (n < Bn)%nat -> (i < Tn)%nat ->
                              (ielt idx [n; i] < TransformerLayer.vocab_size self)%nat.



End TransformerLayerLengthOne.

(** ** Where the random draws of dropout can reach *)

Lemma Dropout_call_indep (rate : R) (training : bool) (keep keep' : list nat -> bool)
    (x : tensor) :
  training = false \/ rate = 0 ->
  Dropout_call rate training keep x = Dropout_call rate false keep' x.
Proof.
  intros [->| ->].
  - now rewrite !Dropout_call_eval.
  - now rewrite !Dropout_call_zero.
Qed.

Lemma FeedForward_call_indep (ff : FeedForward.t) (p : FeedForward.params)
    (training : bool) (keep keep' : list nat -> bool) (x : tensor) :
  training = false \/ FeedForward.dropout ff = 0 ->
  FeedForward.call (FeedForward.build ff p) training keep x
  = FeedForward.call (FeedForward.build ff p) false keep' x.
Proof.
  intros H. unfold FeedForward.call, FeedForward.build. simpl.
  destruct (LayerNormalization_call _ x) as [y|e]; [|reflexivity]. cbn [bind].
  destruct (Conv1D_call _ y) as [z|e]; [|reflexivity]. cbn [bind].
  destruct (Conv1D_call _ z) as [u|e]; [|reflexivity]. cbn [bind].
  now rewrite (Dropout_call_indep _ training keep keep').
Qed.

Lemma multi_head_self_attention_call_indep (mha : MultiHeadAttention.t)
    (training training' : bool) (keep keep' : list nat -> bool) (x : tensor) :
  MultiHeadAttention.dropout mha = 0 ->
  multi_head_self_attention_call mha training keep x
  = multi_head_self_attention_call mha training' keep' x.
Proof.
  intros H0. unfold multi_head_self_attention_call, MultiHeadAttention.call.
  now rewrite (attention_weights_no_dropout _ training training' keep keep').
Qed.

Lemma Block_call_indep (b : Block.t) (pk : Block.params) (training : bool)
    (ks kf ks' kf' : list nat -> bool) (x : tensor) :
  training = false \/ Block.dropout b = 0 ->
  Block.call (Block.build b pk) training ks kf x
  = Block.call (Block.build b pk) false ks' kf' x.
Proof.
  intros H. unfold Block.call, Block.attention_path, Block.ffwd_path.
  destruct (LayerNormalization_call (Block.ln1 _) x) as [n1|e]; [|reflexivity].
  cbn [bind].
  rewrite (multi_head_self_attention_call_indep _ training false ks ks')
    by reflexivity.
  destruct (multi_head_self_attention_call _ false ks' n1) as [a|e]; [|reflexivity].
  cbn [bind].
  destruct (tadd x a) as [x1|e]; [|reflexivity]. cbn [bind].
  destruct (LayerNormalization_call (Block.ln2 _) x1) as [n2|e]; [|reflexivity].
  cbn [bind]. cbn [Block.build Block.ffwd].
  now rewrite (FeedForward_call_indep _ _ training kf kf').
Qed.

Lemma blocks_call_indep (self : TransformerLayer.t) (training : bool)
    (ks kf ks' kf' : nat -> list nat -> bool) (bs : list Block.layers) :
  Forall (made_by self) bs ->
  training = false \/ TransformerLayer.dropout self = 0 ->
  forall (k : nat) (x : tensor),
    TransformerLayer.blocks_call bs training ks kf k x
    = TransformerLayer.blocks_call bs false ks' kf' k x.
Proof.
  intros HF H. induction HF as [|bl bs (b & pk & Hi & ->) HF IH]; intros k x; simpl.
  - reflexivity.
  - assert (Hd : Block.dropout b = TransformerLayer.dropout self).
    { unfold Block.init in Hi.
      destruct (_ =? 0)%nat; [discriminate|].
      destruct (_ =? 0)%nat; [|discriminate]. now injection Hi as <-. }
    rewrite (Block_call_indep b pk training (ks k) (kf k) (ks' k) (kf' k))
      by (rewrite Hd; exact H).
    destruct (Block.call _ false _ _ x) as [y|e]; [|reflexivity].
    cbn [bind]. apply IH.
Qed.

(** The random draws of dropout reach the result of [TransformerLayer.call]
    only in training and only through the model's own dropout rate: outside
    training, or with a rate of 0, the call gives the result of inference
    whatever is drawn.  (The attention layers never drop anything; the only
    dropout is the last layer of each feed-forward net.) *)
Theorem TransformerLayer_call_dropout_reach (self : TransformerLayer.t)
    (p : TransformerLayer.params) (input_shape : list nat)
    (l : TransformerLayer.layers) (training : bool)
    (ks kf ks' kf' : nat -> list nat -> bool) (idx : itensor) :
  TransformerLayer.build self p input_shape = Ok l ->
  training = false \/ TransformerLayer.dropout self = 0 ->
  TransformerLayer.call l training ks kf idx
  = TransformerLayer.call l false ks' kf' idx.
Proof.
  intros Hb H.
  destruct (TransformerLayer_build_inv _ _ _ _ Hb) as (_ & HF & _).
  unfold TransformerLayer.call.
  destruct (TransformerLayer.embed l idx) as [x|e]; [|reflexivity]. cbn [bind].
  now rewrite (blocks_call_indep self training ks kf ks' kf' _ HF H).
Qed.

(** ** The attention layer of a block does not see the order of the steps *)



Section Reindex.

Variable Tn : nat.
Variable pi : nat -> nat.
Hypothesis pi_range : forall i, (i < Tn)%nat -> (pi i < Tn)%nat.
Hypothesis pi_inj : forall i j, (i < Tn)%nat -> (j < Tn)%nat -> pi i = pi j -> i = j.



End Reindex.



Section AttentionOrder.

Variable Tn : nat.
Variable pi : nat -> nat.
Hypothesis pi_range : forall i, (i < Tn)%nat -> (pi i < Tn)%nat.
Hypothesis pi_inj : forall i j, (i < Tn)%nat -> (j < Tn)%nat -> pi i = pi j -> i = j.

Variable mha : MultiHeadAttention.t.
Variables x x' : tensor.
Variables Bn Cn : nat.
Hypothesis Hx : shape x = [Bn; Tn; Cn].
Hypothesis Hx' : shape x' = [Bn; Tn; Cn].
(** [x'] is [x] with its steps taken in the order [pi]. *)
Hypothesis Hperm : forall n i c, elt x' [n; i; c] = elt x [n; pi i; c].






End AttentionOrder.

Section BlockOrder.

Variable Tn : nat.
Variable pi : nat -> nat.
Hypothesis pi_range : forall i, (i < Tn)%nat -> (pi i < Tn)%nat.
Hypothesis pi_inj : forall i j, (i < Tn)%nat -> (j < Tn)%nat -> pi i = pi j -> i = j.

Variables (n_embd n_head : nat) (dropout : R).
Variable self : Block.t.
Variable p : Block.params.
Variables x x' : tensor.
Variable Bn : nat.

Hypothesis Hinit : Block.init n_embd n_head dropout = Ok self.
Hypothesis Hpos : (0 < Block.n_embd self)%nat.
Hypothesis Hbuilt : Block.built_for (Block.n_embd self) (Block.build self p) = true.
Hypothesis Hx : shape x = [Bn; Tn; Block.n_embd self].
Hypothesis Hx' : shape x' = [Bn; Tn; Block.n_embd self].
Hypothesis Hperm : forall n i c, elt x' [n; i; c] = elt x [n; pi i; c].


End BlockOrder.

(** ** Instances of the properties above *)



(** The head of the script accepts the script's input. *)
Lemma Head_call_only_for_seq_len_witness :
  exists Bn Cn, shape (ones [B; T; C]) = [Bn; Head.seq_len head; Cn].
Proof.
  destruct (Head_call_elt head (ones [C; 3%nat]) (ones [C; 3%nat]) (ones [C; 3%nat])
              (ones [B; T; C]) false (fun _ => true) B C
              eq_refl eq_refl eq_refl eq_refl) as (wei & out & _ & Hc & _).
  destruct (Head_call_only_for_seq_len head _ _ _ _ out false _ Hc) as (Bn & Cn & H & _).
  exists Bn, Cn. exact H.
Defined.

Lemma Head_call_batch_independent_witness :
  exists out out',
    Head.call head (Head.build head (ones [C; 3%nat]) (ones [C; 3%nat]) (ones [C; 3%nat]))
      false (fun _ => true) (ones [B; T; C]) = Ok out
    /\ Head.call head (Head.build head (ones [C; 3%nat]) (ones [C; 3%nat]) (ones [C; 3%nat]))
         false (fun _ => false) (ones [1%nat; T; C]) = Ok out'
    /\ forall i h, (i < T)%nat -> elt out [7; i; h]%nat = elt out' [0; i; h]%nat.
Proof.
  apply (Head_call_batch_independent head (ones [C; 3%nat]) (ones [C; 3%nat])
           (ones [C; 3%nat]) (ones [B; T; C]) (ones [1%nat; T; C])
           (fun _ => true) (fun _ => false) B 1 C 7 0);
    try reflexivity; unfold B; lia.
Defined.

Lemma FeedForward_call_positionwise_witness :
  exists y y',
    FeedForward.call (FeedForward.build ff5 ff5_params) false (fun _ => true)
      (ones [B; T; C]) = Ok y
    /\ FeedForward.call (FeedForward.build ff5 ff5_params) false (fun _ => false)
         (ones [1; 1; 5]%nat) = Ok y'
    /\ forall c, elt y [3; 2; c]%nat = elt y' [0; 0; c]%nat.
Proof.
  apply (FeedForward_call_positionwise ff5 ff5_params (ones [B; T; C])
           (ones [1; 1; 5]%nat) (fun _ => true) (fun _ => false) B T 1 1 5 3 2 0 0);
    reflexivity.
Defined.



(** Width 5 with 2 heads is reported by [build] when one block is asked for
    and accepted when none is; an empty vocabulary is reported first. *)
Lemma TransformerLayer_build_result_witness :
  TransformerLayer.build (TransformerLayer.init 2 5 2 1 0) (tiny_params 3) [1; 3]%nat
  = Err AssertionError
  /\ TransformerLayer.build (TransformerLayer.init 0 5 2 1 0) (tiny_params 3) [1; 3]%nat
     = Err ValueError
  /\ exists l,
       TransformerLayer.build (TransformerLayer.init 2 5 2 0 0) (tiny_params 3) [1; 3]%nat
       = Ok l
       /\ TransformerLayer.blocks l = [].
Proof.
  split; [|split].
  - destruct (TransformerLayer_build_result (TransformerLayer.init 2 5 2 1 0)
                (tiny_params 3) 1 3 []) as (_ & _ & _ & H).
    destruct H as (_ & _ & H & _); simpl; try lia.
    apply H; simpl; lia.
  - destruct (TransformerLayer_build_result (TransformerLayer.init 0 5 2 1 0)
                (tiny_params 3) 1 3 []) as (_ & _ & H & _).
    apply H. left. reflexivity.
  - destruct (TransformerLayer_build_result (TransformerLayer.init 2 5 2 0 0)
                (tiny_params 3) 1 3 []) as (_ & _ & _ & H).
    destruct H as (H & _); simpl; try lia.
    destruct (H eq_refl) as (l & Hl & Hb & _). exists l. split; assumption.
Defined.


(** [tiny_model] has dropout rate 0: training is inference. *)
Lemma TransformerLayer_call_dropout_reach_witness :
  exists l,
    TransformerLayer.build tiny_model (tiny_params 3) [1; 3]%nat = Ok l
    /\ TransformerLayer.call l true (fun _ _ => true) (fun _ _ => false) (zero_tokens 2 3)
       = TransformerLayer.call l false (fun _ _ => false) (fun _ _ => true)
           (zero_tokens 2 3).
Proof.
  eexists. split; [reflexivity|].
  apply (TransformerLayer_call_dropout_reach tiny_model (tiny_params 3) [1; 3]%nat);
    [reflexivity|right; reflexivity].
Defined.



(** ** [Block.call]: the channel count of the input *)

Lemma broadcast_shape_channels (Bn Tn Cn Dn : nat) :
  Cn <> Dn -> Cn <> 1%nat -> Dn <> 1%nat ->
  broadcast_shape [Bn; Tn; Cn] [Bn; Tn; Dn] = None.
Proof.
  intros H1 H2 H3. unfold broadcast_shape; simpl.
  rewrite !Nat.eqb_refl.
  apply Nat.eqb_neq in H1, H2, H3. now rewrite H1, H2, H3.
Qed.

(** A block of width [n_embd] whose sublayers are built for an input with [C]
    channels, [C] other than [n_embd] (both at least 2), fails in its first
    residual sum: the attention branch returns [n_embd] channels, which
    cannot be added to the [C] channels of the input. *)
Theorem Block_call_channel_mismatch (n_embd n_head : nat) (dropout : R)
    (self : Block.t) (p : Block.params) (training : bool)
    (keep_sa keep_ff : list nat -> bool) (x : tensor) (Bn Tn Cn : nat) :
  Block.init n_embd n_head dropout = Ok self ->
  Block.built_for Cn (Block.build self p) = true ->
  shape x = [Bn; Tn; Cn] ->
  Cn <> Block.n_embd self -> (2 <= Cn)%nat -> (2 <= Block.n_embd self)%nat ->
  Block.call (Block.build self p) training keep_sa keep_ff x
  = Err InvalidArgumentError.
Proof.
  intros Hi Hb Hx H1 H2 H3.
  assert (Hhs : (0 < Block.head_size self)%nat)
    by (apply (Block_init_head_size_pos _ _ _ _ Hi); lia).
  destruct (Block_build_output_shape _ _ _ _ p Hi) as [Hout _].
  unfold Block.built_for in Hb.
  apply andb_true_iff in Hb as [Hb _].
  apply andb_true_iff in Hb as [Hb Hsa].
  apply andb_true_iff in Hb as [Hl1 _].
  unfold Block.call, Block.attention_path.
  destruct (LayerNormalization_call_shape _ x _ _ _ Hx Hl1) as (n1 & -> & Hn1).
  cbn [bind].
  destruct (multi_head_self_attention_call_shape _ training keep_sa n1 _ _ _
              Hn1 Hsa Hhs) as (a & -> & Ha).
  cbn [bind]. rewrite Hout in Ha.
  unfold tadd. rewrite Hx, Ha, broadcast_shape_channels by (assumption || lia).
  reflexivity.
Qed.

(** [unit_block] (width 2) with sublayers built for 3 channels. *)
Lemma Block_call_channel_mismatch_witness :
  Block.call
    (Block.build unit_block
       (Block.mkParams
          (MultiHeadAttention.mkParams
             (ones [3; 1; 2]%nat) (ones [1; 2]%nat) (ones [3; 1; 2]%nat) (ones [1; 2]%nat)
             (ones [3; 1; 2]%nat) (ones [1; 2]%nat) (ones [1; 2; 2]%nat) (ones [2]%nat))
          (FeedForward.mkParams
             (ones [3]%nat) (ones [3]%nat) (ones [3; 4]%nat) (ones [4]%nat)
             (ones [4; 2]%nat) (ones [2]%nat))
          (ones [3]%nat) (ones [3]%nat) (ones [3]%nat) (ones [3]%nat)))
    false (fun _ => true) (fun _ => true) (ones [1; 2; 3]%nat)
  = Err InvalidArgumentError.
Proof.
  apply (Block_call_channel_mismatch 2 1 0 unit_block _ false (fun _ => true)
           (fun _ => true) (ones [1; 2; 3]%nat) 1 2 3);
    try reflexivity; simpl; lia.
Defined.
